(** * geneshot: [bin/add_corncob_results.py]

    A shallow embedding of the post-processing script that reshapes the
    corncob regression output, labels genes with rank-specific taxon names
    and writes the results partitioned by annotation.

    pandas objects are modelled as follows.  A [Series] indexed by labels
    is a finite map; [Series.get] is map lookup and returns [None] for a
    label that is not in the index.  A [DataFrame] is an ordered list of
    column names together with a list of rows, each row a finite map from
    column name to cell; a missing cell (NaN) is an absent key. *)

From Stdlib Require Import ZArith QArith Qminmax List String Ascii Lia.
From stdpp Require Import base option list strings gmap pretty sorting.

Local Open Scope string_scope.
Local Open Scope Z_scope.

(** ** Taxonomy *)

Module Tax.

(** One row of [/ref/taxonomy] as stored in the HDF5 file, keyed by
    [tax_id].  The parent may be missing. *)
Record RawTaxon := mkRawTaxon {
  raw_parent : option Z;
  raw_name : string;
  raw_rank : string
}.

(** One row of [self.taxonomy_df] after [__init__]: the parent is a
    string. *)
Record Taxon := mkTaxon {
  t_parent : string;
  t_name : string;
  t_rank : string
}.

(** [str(int(float(x)))] for an integral parent id. *)
Definition str (z : Z) : string := pretty z.

(** [Taxonomy.__init__]: [fillna(0).apply(float).apply(int).apply(str)]
    on the parent column. *)
Definition init_row (r : RawTaxon) : Taxon :=
  mkTaxon (str (default 0 (raw_parent r))) (raw_name r) (raw_rank r).

Definition Taxonomy_init (raw : gmap string RawTaxon) : gmap string Taxon :=
  init_row <$> raw.

Section Methods.

Variable taxonomy_df : gmap string Taxon.

(** [self.taxonomy_df["parent"].get(tax_id)] *)
Definition parent (tax_id : string) : option string :=
  t_parent <$> taxonomy_df !! tax_id.

(** [self.taxonomy_df["name"].get(tax_id)] *)
Definition name (tax_id : string) : option string :=
  t_name <$> taxonomy_df !! tax_id.

(** [self.taxonomy_df["rank"].get(tax_id)] *)
Definition rank (tax_id : string) : option string :=
  t_rank <$> taxonomy_df !! tax_id.

(** [Taxonomy.ancestors].  The method is recursive with no decreasing
    argument; [depth] bounds the number of nested calls (the interpreter's
    recursion limit), and [None] is the outcome of a walk that needs more
    calls than that. *)
Fixpoint ancestors (depth : nat) (tax_id : string) (a : list string)
  : option (list string) :=
  match depth with
  | O => None
  | S depth' =>
      let a := (a ++ [tax_id])%list in
      match parent tax_id with
      | None => Some a
      | Some p =>
          if String.eqb p tax_id then Some a
          else ancestors depth' p a
      end
  end.

(** The [for t in ancestors(...)] loop of [anc_at_rank], with its early
    [return tax.name(t)]; falling off the end returns [None]. *)
Fixpoint first_at_rank (rk : string) (chain : list string) : option string :=
  match chain with
  | [] => None
  | t :: chain' =>
      if decide (rank t = Some rk) then name t
      else first_at_rank rk chain'
  end.

(** [anc_at_rank] inside [annotate_taxa].  The two [lru_cache] wrappers
    memoise pure functions and do not change any result.  The outer
    option is [None] when the ancestor walk does not return. *)
Definition anc_at_rank (depth : nat) (tax_id : Z) (rk : string)
  : option (option string) :=
  if Z.eqb tax_id 0 then Some None
  else chain ← ancestors depth (str tax_id) []; Some (first_at_rank rk chain).

(** The ids from which the parent walk reaches a stop condition: an id
    without a parent entry, or an id that is its own parent. *)
Inductive grounded : string → Prop :=
  | grounded_unknown tax_id :
      parent tax_id = None → grounded tax_id
  | grounded_self tax_id :
      parent tax_id = Some tax_id → grounded tax_id
  | grounded_step tax_id p :
      parent tax_id = Some p → p ≠ tax_id → grounded p → grounded tax_id.

(** [chain_from tax_id chain]: [chain] starts at [tax_id], every next
    entry is the parent of the one before, and the last entry has no
    parent entry or is its own parent. *)
Inductive chain_from : string → list string → Prop :=
  | chain_stop tax_id :
      parent tax_id = None ∨ parent tax_id = Some tax_id →
      chain_from tax_id [tax_id]
  | chain_step tax_id p chain :
      parent tax_id = Some p → p ≠ tax_id → chain_from p chain →
      chain_from tax_id (tax_id :: chain).

End Methods.

(** A table with a parent cycle of length two, and one whose root is its
    own parent. *)
Definition two_cycle : gmap string RawTaxon :=
  {[ "1" := mkRawTaxon (Some 2) "A" "genus";
     "2" := mkRawTaxon (Some 1) "B" "family" ]}.

Definition rooted : gmap string RawTaxon :=
  {[ "1" := mkRawTaxon (Some 1) "root" "no rank";
     "543" := mkRawTaxon (Some 1) "Enterobacteriaceae" "family";
     "561" := mkRawTaxon (Some 543) "Escherichia" "genus";
     "562" := mkRawTaxon (Some 561) "Escherichia coli" "species";
     "9" := mkRawTaxon None "orphan" "species" ]}.

End Tax.

(** ** Values, exceptions and data frames *)

(** A cell of a frame.  [F] is the type of [float64] numbers other than
    NaN; a NaN cell is an absent key of the row. *)
Inductive Val (F : Type) : Type :=
  | VInt (z : Z)
  | VFloat (x : F)
  | VStr (s : string).
Arguments VInt {F} z.
Arguments VFloat {F} x.
Arguments VStr {F} s.

Record DataFrame (F : Type) : Type := mkDF {
  df_columns : list string;
  df_rows : list (gmap string (Val F))
}.
Arguments mkDF {F} _ _.
Arguments df_columns {F} _.
Arguments df_rows {F} _.

(** The exceptions the script can raise. *)
Inductive Exn : Type :=
  | KeyError (key : string)
  | ValueError (msg : string)
  | AssertionError.

Inductive result (A : Type) : Type :=
  | Ok (a : A)
  | Raise (e : Exn).
Arguments Ok {A} a.
Arguments Raise {A} e.

Definition rbind {A B : Type} (m : result A) (k : A → result B) : result B :=
  match m with
  | Ok a => k a
  | Raise e => Raise e
  end.

Notation "'try' x ':=' m 'in' k" := (rbind m (fun x => k))
  (at level 10, x name, m at level 100, k at level 200, only parsing).

(** What the script needs from [numpy], [pandas] and [statsmodels] on
    [float64]: the mean of a group of numbers (NaN when it is undefined),
    true division, the constants [1.0] and [0.2], and the corrected
    p-values [multipletests(pvals, alpha, method)[1]]. *)
Class Float64 (F : Type) : Type := {
  mean : list F → option F;
  truediv : F → F → option F;
  f_one : F;
  f_alpha : F;
  multipletests : list F → F → string → list F
}.

(** [str.replace(old, new)]: every non-overlapping occurrence of [old],
    scanning from the left.  [skip] counts the characters of an occurrence
    that are still to be dropped. *)
Fixpoint replace_from (old new : string) (skip : nat) (s : string) : string :=
  match s with
  | EmptyString => EmptyString
  | String c s' =>
      match skip with
      | S k => replace_from old new k s'
      | O =>
          if String.prefix old s
          then new +:+ replace_from old new (Nat.pred (String.length old)) s'
          else String c (replace_from old new O s')
      end
  end.

Fixpoint interleave (new s : string) : string :=
  match s with
  | EmptyString => new
  | String c s' => new +:+ String c (interleave new s')
  end.

Definition replace (old new s : string) : string :=
  match old with
  | EmptyString => interleave new s
  | _ => replace_from old new O s
  end.

(** [str.startswith] *)
Definition startswith (s pre : string) : bool := String.prefix pre s.

Module Pd.
Section Frame.

Context {F : Type}.

Definition as_int (v : Val F) : option Z :=
  match v with VInt z => Some z | _ => None end.

Definition as_float (v : Val F) : option F :=
  match v with VFloat x => Some x | _ => None end.

Definition as_str (v : Val F) : option string :=
  match v with VStr s => Some s | _ => None end.

(** [c in df.columns.values] *)
Definition has_col (df : DataFrame F) (c : string) : bool :=
  bool_decide (c ∈ df_columns df).

(** [df.shape[0]] *)
Definition shape0 (df : DataFrame F) : Z := Z.of_nat (length (df_rows df)).

(** The cells of a float column, [None] for NaN. *)
Definition float_column (df : DataFrame F) (c : string) : list (option F) :=
  (λ r : gmap string (Val F), r !! c ≫= as_float) <$> df_rows df.

(** [df[c]] on a float column. *)
Definition getitem (df : DataFrame F) (c : string) : result (list (option F)) :=
  if has_col df c then Ok (float_column df c) else Raise (KeyError c).

(** [Series.fillna(x)] *)
Definition fillna (x : F) (col : list (option F)) : list F :=
  default x <$> col.

Definition set_cell (c : string) (r : gmap string (Val F)) (v : option (Val F))
  : gmap string (Val F) :=
  match v with
  | Some x => <[c := x]> r
  | None => delete c r
  end.

Definition with_col (cols : list string) (c : string) : list string :=
  if bool_decide (c ∈ cols) then cols else (cols ++ [c])%list.

(** [df.assign(c = vals)] for an array of values: the column is replaced
    or appended; the array must be as long as the frame. *)
Definition assign (df : DataFrame F) (c : string) (vals : list (option (Val F)))
  : result (DataFrame F) :=
  if Nat.eqb (length vals) (length (df_rows df))
  then Ok (mkDF (with_col (df_columns df) c)
                (zip_with (set_cell c) (df_rows df) vals))
  else Raise (ValueError "Length of values does not match length of index").

(** [df.assign(c = v)] for a scalar. *)
Definition assign_scalar (df : DataFrame F) (c : string) (v : Val F)
  : DataFrame F :=
  mkDF (with_col (df_columns df) c) (insert c v <$> df_rows df).

(** [df.loc[mask]] for a boolean mask computed row by row. *)
Definition loc (mask : gmap string (Val F) → bool) (df : DataFrame F)
  : DataFrame F :=
  mkDF (df_columns df) (List.filter mask (df_rows df)).

(** [df[c].unique()] of an integer column, as the set it is used for. *)
Definition unique (df : DataFrame F) (c : string) : gset Z :=
  list_to_set (omap (λ r : gmap string (Val F), r !! c ≫= as_int) (df_rows df)).

(** [df[c].isin(values)], row by row. *)
Definition isin (c : string) (values : gset Z) (r : gmap string (Val F)) : bool :=
  match r !! c ≫= as_int with
  | Some z => bool_decide (z ∈ values)
  | None => false
  end.

(** [pd.concat(frames)]: the rows in order, under the union of the
    columns. *)
Definition concat (frames : list (DataFrame F)) : DataFrame F :=
  mkDF (remove_dups (List.concat (df_columns <$> frames)))
       (List.concat (df_rows <$> frames)).

Definition has_label (c l : string) (r : gmap string (Val F)) : bool :=
  match r !! c ≫= as_str with
  | Some s => String.eqb s l
  | None => false
  end.

(** [df.groupby(c)] on a column of strings: one [(label, sub-frame)] per
    distinct label, the labels in sorted order; rows whose label is missing
    belong to no group. *)
Definition groupby (df : DataFrame F) (c : string)
  : list (string * DataFrame F) :=
  let labels :=
    merge_sort (λ a b, Is_true (String.leb a b))
      (remove_dups (omap (λ r : gmap string (Val F), r !! c ≫= as_str)
                         (df_rows df))) in
  (λ l, (l, loc (has_label c l) df)) <$> labels.

(** [df.query("parameter != '(Intercept)'")] *)
Definition query_not_intercept (df : DataFrame F) : DataFrame F :=
  loc (λ r, negb (has_label "parameter" "(Intercept)" r)) df.

End Frame.
End Pd.

(** ** Reshaping the corncob results *)

(** One line of the corncob CSV: [CAG, parameter, type, value]. *)
Record StatRow (F : Type) : Type := mkStat {
  CAG : Z;
  parameter : string;
  type : string;
  value : option F
}.
Arguments mkStat {F} _ _ _ _.
Arguments CAG {F} _.
Arguments parameter {F} _.
Arguments type {F} _.
Arguments value {F} _.

Section Reshape.

Context {F : Type} `{Float64 F}.

(** The order of the [(CAG, parameter)] index of the pivot. *)
Definition index_le (k1 k2 : Z * string) : Prop :=
  Is_true ((k1.1 <? k2.1) || ((k1.1 =? k2.1) && String.leb k1.2 k2.2)).

(** The lines that carry a number, as [((CAG, parameter), type, value)]. *)
Definition observations (df : list (StatRow F))
  : list (Z * string * string * F) :=
  omap (λ r, x ← value r; Some (CAG r, parameter r, type r, x)) df.

Definition group_values (k : Z * string * string)
    (obs : list (Z * string * string * F)) : list F :=
  omap (λ o : Z * string * string * F,
          if decide (o.1 = k) then Some o.2 else None) obs.

(** [groupby(["CAG", "parameter", "type"]).agg("mean")] followed by
    [dropna(how="all")]: one mean per group, groups without a mean dropped. *)
Definition agged (obs : list (Z * string * string * F))
  : list (Z * string * string * F) :=
  omap (λ k, m ← mean (group_values k obs); Some (k, m)) (remove_dups obs.*1).

(** The cells of the pivot row of index [k]. *)
Definition pivot_row (ag : list (Z * string * string * F)) (k : Z * string)
  : gmap string (Val F) :=
  list_to_map
    (omap (λ o : Z * string * string * F,
             if decide (o.1.1 = k) then Some (o.1.2, VFloat o.2) else None) ag).

(** [df.pivot_table(index=["CAG", "parameter"], columns="type",
    values="value")]: the sorted index, and the frame of one column per
    type. *)
Definition pivot_table (df : list (StatRow F))
  : list (Z * string) * DataFrame F :=
  let ag := agged (observations df) in
  let index := merge_sort index_le (remove_dups ag.*1.*1) in
  let columns :=
    merge_sort (λ a b, Is_true (String.leb a b)) (remove_dups ag.*1.*2) in
  (index, mkDF columns (pivot_row ag <$> index)).

(** [reset_index()]: the two index levels become the first two columns;
    a column of the same name is refused. *)
Definition reset_index (t : list (Z * string) * DataFrame F)
  : result (DataFrame F) :=
  let '(index, df) := t in
  if Pd.has_col df "parameter"
  then Raise (ValueError "cannot insert parameter, already exists")
  else if Pd.has_col df "CAG"
  then Raise (ValueError "cannot insert CAG, already exists")
  else Ok (mkDF ("CAG" :: "parameter" :: df_columns df)
             (zip_with (λ (k : Z * string) (r : gmap string (Val F)),
                          <["CAG" := VInt k.1]> (<["parameter" := VStr k.2]> r))
                       index (df_rows df))).

(** [lambda s: s.replace("mu.", "")] on a cell of the parameter column. *)
Definition strip_mu (v : Val F) : Val F :=
  match v with
  | VStr s => VStr (replace "mu." "" s)
  | _ => v
  end.

(** [.apply(lambda v: v.apply(...) if v.name == "parameter" else v)] *)
Definition rename_parameters (df : DataFrame F) : DataFrame F :=
  mkDF (df_columns df) (alter strip_mu "parameter" <$> df_rows df).

(** Lines 26 to 37: the wide table of the [mu.] lines. *)
Definition wide_mu (corncob_df : list (StatRow F)) : result (DataFrame F) :=
  try t := reset_index
             (pivot_table
                (List.filter (λ r, startswith (parameter r) "mu.") corncob_df)) in
  Ok (rename_parameters t).

(** Lines 39 to 45: the q-values, when there are p-values. *)
Definition add_q_value (fdr_method : string) (corncob_wide : DataFrame F)
  : result (DataFrame F) :=
  if Pd.has_col corncob_wide "p_value"
  then Pd.assign corncob_wide "q_value"
         ((λ q, Some (VFloat q)) <$>
            multipletests
              (Pd.fillna f_one (Pd.float_column corncob_wide "p_value"))
              f_alpha fdr_method)
  else Ok corncob_wide.

Definition wald_cell (e s : option F) : option (Val F) :=
  x ← e; y ← s; VFloat <$> truediv x y.

(** Lines 47 to 50: the Wald statistic. *)
Definition add_wald (corncob_wide : DataFrame F) : result (DataFrame F) :=
  try estimate := Pd.getitem corncob_wide "estimate" in
  try std_error := Pd.getitem corncob_wide "std_error" in
  Pd.assign corncob_wide "wald" (zip_with wald_cell estimate std_error).

Definition read_corncob_results (fdr_method : string)
    (corncob_df : list (StatRow F)) : result (DataFrame F) :=
  try corncob_wide := wide_mu corncob_df in
  try corncob_wide := add_q_value fdr_method corncob_wide in
  add_wald corncob_wide.

End Reshape.

(** ** Writing the results by annotation *)

Section Partition.

Context {F : Type}.

(** What the script leaves behind: the frames written with [to_csv], as
    [(path, frame)] in the order of the calls, and the lines printed. *)
Record Output : Type := mkOutput {
  files : list (string * DataFrame F);
  stdout : list string
}.

(** The state of the batching loop. *)
Record Batching : Type := mkBatching {
  ix : Z;
  batch_size : Z;
  batch : list (DataFrame F);
  out : Output
}.

(** [fp_out.format(ix)] *)
Definition format (fp_out : string) (ix : Z) : string :=
  replace "{}" (pretty ix) fp_out.

(** [pd.DataFrame({"estimate": [1], "p_value": [1], "parameter": ["dummy"]})] *)
Definition dummy : DataFrame F :=
  mkDF ["estimate"; "p_value"; "parameter"]
       [ {[ "estimate" := VInt 1; "p_value" := VInt 1;
            "parameter" := VStr "dummy" ]} ].

(** The list comprehension of lines 147 to 157: for every column, in the
    given order, and every label of that column, the rows of the results
    whose CAG carries the label, tagged with the label and the column. *)
Definition label_frames (corncob_wide gene_annot : DataFrame F)
    (col_name_list : list string) : list (DataFrame F) :=
  col_name ← col_name_list;
  lg ← Pd.groupby gene_annot col_name;
  [ Pd.assign_scalar
      (Pd.assign_scalar
         (Pd.loc (Pd.isin "CAG" (Pd.unique lg.2 "CAG")) corncob_wide)
         "label" (VStr lg.1))
      "annotation" (VStr col_name) ].

(** [i["label"].values[0]], printed with [%s]. *)
Definition first_label (i : DataFrame F) : string :=
  match df_rows i with
  | r :: _ => default "" (r !! "label" ≫= Pd.as_str)
  | [] => ""
  end.

Definition skip_message (i : DataFrame F) : string :=
  "Skipping the annotation " +:+ first_label i +:+ " -- too many ("
    +:+ pretty (Pd.shape0 i) +:+ ") CAGs found".

Definition to_csv (o : Output) (path : string) (df : DataFrame F) : Output :=
  mkOutput (files o ++ [(path, df)])%list (stdout o).

Definition print (o : Output) (line : string) : Output :=
  mkOutput (files o) (stdout o ++ [line])%list.

(** One iteration of [for i in df] (lines 166 to 186). *)
Definition batch_step (fp_out : string) (st : Batching) (i : DataFrame F)
  : Batching :=
  if 50000 <=? Pd.shape0 i
  then mkBatching (ix st) (batch_size st) (batch st)
         (print (out st) (skip_message i))
  else
    let batch' := (batch st ++ [i])%list in
    let batch_size' := batch_size st + Pd.shape0 i in
    if 10000 <=? batch_size'
    then mkBatching (ix st + 1) 0 []
           (to_csv (out st) (format fp_out (ix st)) (Pd.concat batch'))
    else mkBatching (ix st) batch_size' batch' (out st).

(** Lines 188 to 193: the remainder. *)
Definition write_remainder (fp_out : string) (st : Batching) : Output :=
  if (0 <? length (batch st))%nat
  then to_csv (out st) (format fp_out (ix st)) (Pd.concat (batch st))
  else out st.

(** Lines 159 to 204, for the list [df] of tagged frames. *)
Definition write_batches (fp_out : string) (df : list (DataFrame F)) : Output :=
  if (0 <? length df)%nat
  then write_remainder fp_out
         (foldl (batch_step fp_out) (mkBatching 0 0 [] (mkOutput [] [])) df)
  else to_csv (mkOutput [] []) (format fp_out 0) dummy.

Definition write_corncob_by_annot (corncob_wide gene_annot : DataFrame F)
    (col_name_list : list string) (fp_out : string) : result Output :=
  if forallb (Pd.has_col gene_annot) col_name_list
  then Ok (write_batches fp_out
             (label_frames corncob_wide gene_annot col_name_list))
  else Raise AssertionError.

(** Lines 213 to 230: the annotation columns that are available.  The
    rank columns are added to [gene_annot] by [annotate_taxa] when it has
    a [tax_id] column. *)
Definition columns_to_use (gene_annot : DataFrame F) : list string :=
  ((if Pd.has_col gene_annot "tax_id" then ["species"; "genus"; "family"]
    else []) ++
   (if Pd.has_col gene_annot "eggNOG_desc" then ["eggNOG_desc"] else []))%list.

(** Lines 236 to 254 of the script body. *)
Definition write_for_betta (corncob_wide gene_annot : DataFrame F)
    (columns_to_use : list string) : result Output :=
  if (0 <? length columns_to_use)%nat
  then write_corncob_by_annot (Pd.query_not_intercept corncob_wide)
         gene_annot columns_to_use "corncob.for.betta.{}.csv.gz"
  else Ok (to_csv (mkOutput [] []) (format "corncob.for.betta.{}.csv.gz" 0)
             dummy).

End Partition.

Arguments Output F : clear implicits.
Arguments Batching F : clear implicits.

(** ** Vocabulary of the statements *)

(** The laws of the numeric operations that the statements rely on: the
    mean of a single number is that number, and [multipletests] returns
    one corrected p-value per p-value. *)
Class Float64Laws (F : Type) `{Float64 F} : Prop := {
  mean_single : ∀ x : F, mean [x] = Some x;
  multipletests_length : ∀ (ps : list F) (alpha : F) (method : string),
    length (multipletests ps alpha method) = length ps
}.

(** The key [(CAG, parameter, type)] of a line of the corncob CSV. *)
Definition stat_key {F : Type} (r : StatRow F) : Z * string * string :=
  (CAG r, parameter r, type r).

(** The test of line 170. *)
Definition skipped {F : Type} (i : DataFrame F) : bool :=
  50000 <=? Pd.shape0 i.

(** All the rows written, file after file. *)
Definition written_rows {F : Type} (o : Output F) : list (gmap string (Val F)) :=
  List.concat ((λ f : string * DataFrame F, df_rows f.2) <$> files o).

(** The tagged frame of one label (lines 148 to 154). *)
Definition tagged {F : Type} (rows : DataFrame F) (label col_name : string)
  : DataFrame F :=
  Pd.assign_scalar (Pd.assign_scalar rows "label" (VStr label))
    "annotation" (VStr col_name).

(** The lines of the CSV that [read_corncob_results] selects. *)
Definition mu_rows {F : Type} (corncob_df : list (StatRow F)) : list (StatRow F) :=
  List.filter (λ r, startswith (parameter r) "mu.") corncob_df.

(** Some selected line of type [t] carries a number. *)
Definition mu_type_present {F : Type} (corncob_df : list (StatRow F))
    (t : string) : Prop :=
  ∃ r, r ∈ mu_rows corncob_df ∧ type r = t ∧ is_Some (value r).

(** The row of the wide table for the index [k], before the q-value and
    the Wald statistic are added. *)
Definition wide_row_of {F : Type} (ag : list (Z * string * string * F)) (k : Z * string)
  : gmap string (Val F) :=
  alter strip_mu "parameter"
    (<["CAG" := VInt k.1]> (<["parameter" := VStr k.2]> (pivot_row ag k))).

(** The rows accepted so far by the batching loop: those written and those
    waiting in the batch. *)
Definition accepted {F : Type} (st : Batching F) : list (gmap string (Val F)) :=
  (written_rows (out st) ++ List.concat (df_rows <$> batch st))%list.

(** The frame that the list comprehension builds for the label [label] of
    the column [col_name]. *)
Definition label_frame {F : Type} (corncob_wide gene_annot : DataFrame F)
    (col_name label : string) : DataFrame F :=
  tagged
    (Pd.loc (Pd.isin "CAG"
               (Pd.unique (Pd.loc (Pd.has_label col_name label) gene_annot) "CAG"))
            corncob_wide)
    label col_name.

(** What the batching loop decides on, apart from the printed lines. *)
Definition batch_core {F : Type} (st : Batching F)
  : Z * Z * list (DataFrame F) * list (string * DataFrame F) :=
  (ix st, batch_size st, batch st, files (out st)).

(** [old in s]: some suffix of [s] starts with [old]. *)
Fixpoint occurs (old s : string) : bool :=
  String.prefix old s
  || match s with
     | EmptyString => false
     | String _ s' => occurs old s'
     end.

(** The column that [annotate_taxa] computes for one rank from a [tax_id]
    column of integers:
    [gene_annot["tax_id"].apply(lambda t: anc_at_rank(t, rank=rank))]. *)
Definition rank_column (taxonomy_df : gmap string Tax.Taxon) (depth : nat)
    (tax_ids : list Z) (rk : string) : option (list (option string)) :=
  mapM (λ t, Tax.anc_at_rank taxonomy_df depth t rk) tax_ids.

(** The loop [for rank in rank_list] of [annotate_taxa]: the new columns,
    by name, in the order in which they are added. *)
Definition rank_columns (taxonomy_df : gmap string Tax.Taxon) (depth : nat)
    (tax_ids : list Z) (rank_list : list string)
  : option (list (string * list (option string))) :=
  mapM (λ rk, col ← rank_column taxonomy_df depth tax_ids rk; Some (rk, col))
       rank_list.

(** The batch never holds 10000 rows or more between two groups, and a
    file written by the loop has at least 10000 rows and fewer than
    60000. *)
Definition batch_invariant {F : Type} (st : Batching F) : Prop :=
  batch_size st = Z.of_nat (length (List.concat (df_rows <$> batch st)))
  ∧ batch_size st < 10000
  ∧ Forall (λ f : string * DataFrame F, 10000 ≤ Pd.shape0 f.2 < 60000)
           (files (out st)).

(** Where a frame of the list ends up: still in the batch, or whole, as a
    run of consecutive rows, in a file. *)
Definition placed {F : Type} (st : Batching F) (i : DataFrame F) : Prop :=
  i ∈ batch st
  ∨ ∃ f pre post, f ∈ files (out st)
                  ∧ df_rows f.2 = (pre ++ df_rows i ++ post)%list.

(** ** Example data *)

(** Rational numbers stand in for [float64] in the examples; a division
    by zero and the mean of no number are undefined. *)
Definition Q_mean (l : list Q) : option Q :=
  match l with
  | [] => None
  | x :: l' =>
      Some (Qmake (Qnum (fold_left Qplus l' x))
              (Qden (fold_left Qplus l' x) * Pos.of_nat (length l)))
  end.

Definition Q_truediv (x y : Q) : option Q :=
  if Qeq_bool y 0 then None else Some (x / y)%Q.

(** The Bonferroni correction, [min(1, p * n)]. *)
Definition Q_bonferroni (ps : list Q) : list Q :=
  (λ p : Q, Qmin 1 (p * inject_Z (Z.of_nat (length ps)))) <$> ps.

(** The Benjamini-Hochberg correction: [min(1, min over the p-values
    p' >= p of p' * n / #(p-values <= p'))]. *)
Definition Q_fdr_bh (ps : list Q) : list Q :=
  let n := inject_Z (Z.of_nat (length ps)) in
  let raw (p' : Q) : Q :=
    (p' * n / inject_Z (Z.of_nat (length (List.filter (λ q, Qle_bool q p') ps))))%Q in
  (λ p : Q,
     fold_right Qmin 1%Q (raw <$> List.filter (λ p', Qle_bool p p') ps)) <$> ps.

#[export] Instance Q_float64 : Float64 Q := {|
  mean := Q_mean;
  truediv := Q_truediv;
  f_one := 1%Q;
  f_alpha := (2 # 10)%Q;
  multipletests ps alpha method :=
    if String.eqb method "bonferroni" then Q_bonferroni ps else Q_fdr_bh ps
|}.

(** A corncob table of two CAGs: an intercept and one condition each,
    CAG 2 without a p-value for the condition. *)
Definition example_csv : list (StatRow Q) :=
  [ mkStat 1 "mu.(Intercept)" "estimate" (Some (-3 # 1)%Q);
    mkStat 1 "mu.(Intercept)" "std_error" (Some (1 # 2)%Q);
    mkStat 1 "mu.(Intercept)" "p_value" (Some (1 # 100)%Q);
    mkStat 1 "mu.treatment" "estimate" (Some (3 # 2)%Q);
    mkStat 1 "mu.treatment" "std_error" (Some (1 # 2)%Q);
    mkStat 1 "mu.treatment" "p_value" (Some (1 # 50)%Q);
    mkStat 1 "phi.treatment" "estimate" (Some (7 # 1)%Q);
    mkStat 2 "mu.(Intercept)" "estimate" (Some (-2 # 1)%Q);
    mkStat 2 "mu.(Intercept)" "std_error" (Some (1 # 4)%Q);
    mkStat 2 "mu.(Intercept)" "p_value" (Some (1 # 20)%Q);
    mkStat 2 "mu.treatment" "estimate" (Some (1 # 4)%Q);
    mkStat 2 "mu.treatment" "std_error" (Some (1 # 8)%Q);
    mkStat 2 "mu.treatment" "p_value" None ].

(** The wide table of the example before and after the q-values and the
    Wald statistic are added. *)
Definition example_wide : DataFrame Q :=
  Eval vm_compute in
    match wide_mu example_csv with
    | Ok t => t
    | Raise _ => mkDF [] []
    end.

Definition example_result : DataFrame Q :=
  Eval vm_compute in
    match read_corncob_results "fdr_bh" example_csv with
    | Ok w => w
    | Raise _ => mkDF [] []
    end.

(** Lines that have the prefix but no estimate. *)
Definition only_p_values : list (StatRow Q) :=
  [ mkStat 1 "mu.treatment" "p_value" (Some (1 # 2)%Q) ].

(** A parameter whose name has a second [mu.] after the prefix. *)
Definition inner_mu : list (StatRow Q) :=
  [ mkStat 1 "mu.stimu.lated" "estimate" (Some (3 # 2)%Q);
    mkStat 1 "mu.stimu.lated" "std_error" (Some (1 # 2)%Q) ].

(** A table whose types include one named like the column that the
    correction adds, and no p-value. *)
Definition q_value_type : list (StatRow Q) :=
  [ mkStat 1 "mu.treatment" "estimate" (Some (3 # 2)%Q);
    mkStat 1 "mu.treatment" "std_error" (Some (1 # 2)%Q);
    mkStat 1 "mu.treatment" "q_value" (Some (1 # 10)%Q) ].

(** A wide table of [n] CAGs numbered from 1, one row each, and the
    annotation of one gene per CAG, all of one genus and one eggNOG
    description. *)
Definition wide_row (c : Z) : gmap string (Val Q) :=
  {[ "CAG" := VInt c; "parameter" := VStr "treatment";
     "estimate" := VFloat (3 # 2)%Q; "std_error" := VFloat (1 # 2)%Q;
     "wald" := VFloat (3 # 1)%Q ]}.

Definition wide_of (n : Z) : DataFrame Q :=
  mkDF ["CAG"; "parameter"; "estimate"; "std_error"; "wald"]
       (wide_row <$> seqZ 1 n).

Definition annot_row (c : Z) : gmap string (Val Q) :=
  {[ "CAG" := VInt c; "genus" := VStr "Escherichia";
     "eggNOG_desc" := VStr "ABC transporter" ]}.

Definition annot_of (n : Z) : DataFrame Q :=
  mkDF ["CAG"; "genus"; "eggNOG_desc"] (annot_row <$> seqZ 1 n).

(** A wide table with an intercept row, and genes of two genera. *)
Definition small_wide : DataFrame Q :=
  mkDF ["CAG"; "parameter"; "estimate"; "std_error"; "wald"]
    [ {[ "CAG" := VInt 1; "parameter" := VStr "(Intercept)";
         "estimate" := VFloat (-3 # 1)%Q ]};
      {[ "CAG" := VInt 1; "parameter" := VStr "treatment";
         "estimate" := VFloat (3 # 2)%Q ]};
      {[ "CAG" := VInt 2; "parameter" := VStr "treatment";
         "estimate" := VFloat (1 # 4)%Q ]} ].

Definition small_annot : DataFrame Q :=
  mkDF ["gene"; "CAG"; "genus"]
    [ {[ "gene" := VStr "g1"; "CAG" := VInt 1; "genus" := VStr "Escherichia" ]};
      {[ "gene" := VStr "g2"; "CAG" := VInt 2; "genus" := VStr "Bacteroides" ]};
      {[ "gene" := VStr "g3"; "CAG" := VInt 2 ]} ].

(** Genes without any genus. *)
Definition unlabelled_annot : DataFrame Q :=
  mkDF ["gene"; "CAG"; "genus"]
    [ {[ "gene" := VStr "g1"; "CAG" := VInt 1 ]};
      {[ "gene" := VStr "g2"; "CAG" := VInt 2 ]} ].

(** * Properties *)

(** ** Taxonomy *)

Section TaxonomyFacts.

Variable taxonomy_df : gmap string Tax.Taxon.

Lemma ancestors_acc depth tax_id a :
  Tax.ancestors taxonomy_df depth tax_id a
  = (λ c, (a ++ c)%list) <$> Tax.ancestors taxonomy_df depth tax_id [].
Proof.
  revert tax_id a. induction depth as [|d IH]; intros tax_id a; [done|].
  simpl. destruct (Tax.parent taxonomy_df tax_id) as [p|]; [|done].
  destruct (String.eqb p tax_id); [done|].
  rewrite (IH p (a ++ [tax_id])%list), (IH p [tax_id]).
  destruct (Tax.ancestors taxonomy_df d p []) as [c|]; simpl; [|done].
  by rewrite <- app_assoc.
Qed.

Lemma ancestors_chain depth tax_id chain :
  Tax.ancestors taxonomy_df depth tax_id [] = Some chain →
  Tax.chain_from taxonomy_df tax_id chain.
Proof.
  revert tax_id chain. induction depth as [|d IH]; intros tax_id chain; [done|].
  simpl. destruct (Tax.parent taxonomy_df tax_id) as [p|] eqn:Hp.
  - destruct (String.eqb_spec p tax_id) as [->|Hne].
    + intros [= <-]. constructor. by right.
    + rewrite ancestors_acc.
      destruct (Tax.ancestors taxonomy_df d p []) as [c|] eqn:Hc; [|done].
      intros [= <-]. simpl. eapply Tax.chain_step; eauto.
  - intros [= <-]. constructor. by left.
Qed.

Lemma chain_ancestors tax_id chain :
  Tax.chain_from taxonomy_df tax_id chain →
  Tax.ancestors taxonomy_df (length chain) tax_id [] = Some chain.
Proof.
  induction 1 as [t [Hp|Hp]|t p c Hp Hne Hc IH]; simpl; rewrite Hp.
  - done.
  - by rewrite String.eqb_refl.
  - destruct (String.eqb_spec p t) as [->|_]; [done|].
    rewrite ancestors_acc, IH. done.
Qed.

Lemma grounded_chain tax_id :
  Tax.grounded taxonomy_df tax_id →
  ∃ chain, Tax.chain_from taxonomy_df tax_id chain.
Proof.
  induction 1 as [t Hp|t Hp|t p Hp Hne _ [c Hc]].
  - exists [t]. constructor. by left.
  - exists [t]. constructor. by right.
  - exists (t :: c). by eapply Tax.chain_step.
Qed.

Lemma chain_grounded tax_id chain :
  Tax.chain_from taxonomy_df tax_id chain → Tax.grounded taxonomy_df tax_id.
Proof.
  induction 1 as [t [Hp|Hp]|t p c Hp Hne Hc IH].
  - by apply Tax.grounded_unknown.
  - by apply Tax.grounded_self.
  - by eapply Tax.grounded_step.
Qed.

(** A walk that returns within the depth bound starts from a grounded
    id. *)
Lemma ancestors_returns_grounded depth tax_id chain :
  Tax.ancestors taxonomy_df depth tax_id [] = Some chain →
  Tax.grounded taxonomy_df tax_id.
Proof. intros Hc. eapply chain_grounded, ancestors_chain, Hc. Qed.

Lemma chain_from_head tax_id chain :
  Tax.chain_from taxonomy_df tax_id chain → head chain = Some tax_id.
Proof. by destruct 1. Qed.

(** The loop of [anc_at_rank] returns the name of the first entry of the
    wanted rank. *)
Lemma first_at_rank_spec rk chain :
  (∃ i t, chain !! i = Some t
          ∧ Tax.rank taxonomy_df t = Some rk
          ∧ (∀ j u, (j < i)%nat → chain !! j = Some u →
                    Tax.rank taxonomy_df u ≠ Some rk)
          ∧ Tax.first_at_rank taxonomy_df rk chain = Tax.name taxonomy_df t)
  ∨ ((∀ t, t ∈ chain → Tax.rank taxonomy_df t ≠ Some rk)
     ∧ Tax.first_at_rank taxonomy_df rk chain = None).
Proof.
  induction chain as [|t chain IH]; simpl.
  - right. split; [|done]. intros t Ht. by apply not_elem_of_nil in Ht.
  - destruct (decide (Tax.rank taxonomy_df t = Some rk)) as [Hr|Hr].
    + left. exists 0%nat, t. repeat split; try done. intros j u Hj. lia.
    + destruct IH as [(i & u & Hi & Hu & Hlt & Hres)|[Hall Hres]].
      * left. exists (S i), u. repeat split; try done.
        intros [|j] v Hj Hv; simpl in Hv.
        -- by injection Hv as <-.
        -- apply (Hlt j v); [lia|done].
      * right. split; [|done]. intros u [->|Hu]%elem_of_cons; auto.
Qed.

End TaxonomyFacts.

Example str_examples : Tax.str 0 = "0" ∧ Tax.str 9606 = "9606".
Proof. split; reflexivity. Qed.

Lemma two_cycle_parent :
  Tax.parent (Tax.Taxonomy_init Tax.two_cycle) "1" = Some "2"
  ∧ Tax.parent (Tax.Taxonomy_init Tax.two_cycle) "2" = Some "1".
Proof. split; reflexivity. Qed.

(** On the two-cycle the walk exceeds every depth bound. *)
Lemma two_cycle_never_returns depth a :
  Tax.ancestors (Tax.Taxonomy_init Tax.two_cycle) depth "1" a = None
  ∧ Tax.ancestors (Tax.Taxonomy_init Tax.two_cycle) depth "2" a = None.
Proof.
  revert a. induction depth as [|d IH]; intros a; [done|].
  destruct two_cycle_parent as [H1 H2].
  simpl. rewrite H1, H2. simpl. split; apply IH.
Qed.

(** C5, as stated: for every loaded taxonomy table, parent cycles
    included, and every id, [ancestors] returns a chain.  This fails on a
    table in which two nodes are each other's parent: only a node that is
    its own parent stops the walk. *)
Lemma ancestors_two_cycle_diverges :
  ¬ (∀ (raw : gmap string Tax.RawTaxon) (tax_id : string),
       ∃ depth chain,
         Tax.ancestors (Tax.Taxonomy_init raw) depth tax_id [] = Some chain).
Proof.
  intros Hall. destruct (Hall Tax.two_cycle "1") as (depth & chain & Hc).
  by rewrite (proj1 (two_cycle_never_returns depth [])) in Hc.
Qed.

(** C5, amended: for every taxonomy table and every id from which the
    parent walk reaches an id without a parent entry or an id that is its
    own parent, [ancestors] returns a finite chain, within as many nested
    calls as the chain has entries; when the id is its own parent the
    chain is the id alone. *)
Theorem ancestors_terminates_grounded
    (taxonomy_df : gmap string Tax.Taxon) (tax_id : string) :
  Tax.grounded taxonomy_df tax_id →
  ∃ chain,
    Tax.ancestors taxonomy_df (length chain) tax_id [] = Some chain
    ∧ Tax.chain_from taxonomy_df tax_id chain
    ∧ (Tax.parent taxonomy_df tax_id = Some tax_id → chain = [tax_id]).
Proof.
  intros [chain Hc]%grounded_chain. exists chain.
  split; [by apply chain_ancestors|]. split; [done|].
  intros Hself. destruct Hc as [t _|t p c Hp Hne _]; [done|].
  rewrite Hp in Hself. by injection Hself.
Qed.

Lemma ancestors_terminates_grounded_witness :
  ∃ chain,
    Tax.ancestors (Tax.Taxonomy_init Tax.rooted) (length chain) "562" []
    = Some chain
    ∧ Tax.chain_from (Tax.Taxonomy_init Tax.rooted) "562" chain
    ∧ (Tax.parent (Tax.Taxonomy_init Tax.rooted) "562" = Some "562" →
       chain = ["562"]).
Proof.
  apply (ancestors_terminates_grounded (Tax.Taxonomy_init Tax.rooted) "562").
  apply (Tax.grounded_step _ "562" "561"); [reflexivity|discriminate|].
  apply (Tax.grounded_step _ "561" "543"); [reflexivity|discriminate|].
  apply (Tax.grounded_step _ "543" "1"); [reflexivity|discriminate|].
  apply Tax.grounded_self. reflexivity.
Defined.

Example ancestors_rooted :
  Tax.ancestors (Tax.Taxonomy_init Tax.rooted) 4 "562" []
  = Some ["562"; "561"; "543"; "1"]
  ∧ Tax.ancestors (Tax.Taxonomy_init Tax.rooted) 1 "1" [] = Some ["1"]
  ∧ Tax.ancestors (Tax.Taxonomy_init Tax.rooted) 2 "9" [] = Some ["9"; "0"].
Proof. repeat split; reflexivity. Qed.



Example anc_at_rank_rooted :
  Tax.anc_at_rank (Tax.Taxonomy_init Tax.rooted) 4 562 "genus"
  = Some (Some "Escherichia")
  ∧ Tax.anc_at_rank (Tax.Taxonomy_init Tax.rooted) 4 562 "family"
    = Some (Some "Enterobacteriaceae")
  ∧ Tax.anc_at_rank (Tax.Taxonomy_init Tax.rooted) 4 562 "phylum"
    = Some None
  ∧ Tax.anc_at_rank (Tax.Taxonomy_init Tax.rooted) 4 0 "species" = Some None.
Proof. repeat split; reflexivity. Qed.

(** ** Writing by annotation *)

Section PartitionFacts.

Context {F : Type}.
Implicit Types (df : list (DataFrame F)) (st : Batching F) (i : DataFrame F).

Lemma rows_concat df : df_rows (Pd.concat df) = List.concat (df_rows <$> df).
Proof. reflexivity. Qed.

Lemma skipped_spec i : skipped i = true ↔ 50000 ≤ Pd.shape0 i.
Proof. unfold skipped. apply Z.leb_le. Qed.

Lemma written_rows_to_csv (o : Output F) path (d : DataFrame F) :
  written_rows (to_csv o path d) = (written_rows o ++ df_rows d)%list.
Proof.
  unfold written_rows, to_csv. simpl.
  rewrite fmap_app, concat_app. simpl. by rewrite app_nil_r.
Qed.

Lemma batch_step_accepted fp st i :
  accepted (batch_step fp st i)
  = (accepted st ++ (if skipped i then [] else df_rows i))%list.
Proof.
  unfold batch_step, skipped, accepted.
  destruct (50000 <=? Pd.shape0 i); simpl; [by rewrite app_nil_r|].
  destruct (10000 <=? batch_size st + Pd.shape0 i); simpl.
  - rewrite written_rows_to_csv, rows_concat, fmap_app, concat_app. simpl.
    by rewrite !app_nil_r, app_assoc.
  - rewrite fmap_app, concat_app. simpl. by rewrite app_nil_r, app_assoc.
Qed.

Lemma batch_step_stdout fp st i :
  stdout (out (batch_step fp st i))
  = (stdout (out st) ++ (if skipped i then [skip_message i] else []))%list.
Proof.
  unfold batch_step, skipped.
  destruct (50000 <=? Pd.shape0 i); simpl; [done|].
  destruct (10000 <=? batch_size st + Pd.shape0 i); simpl; by rewrite app_nil_r.
Qed.

Lemma batch_loop_accepted fp df st :
  accepted (foldl (batch_step fp) st df)
  = (accepted st
     ++ List.concat (df_rows <$> List.filter (λ i, negb (skipped i)) df))%list.
Proof.
  revert st. induction df as [|i df IH]; intros st; simpl.
  - by rewrite app_nil_r.
  - rewrite IH, batch_step_accepted.
    destruct (skipped i); simpl; by rewrite <- ?app_assoc.
Qed.

Lemma batch_loop_stdout fp df st :
  stdout (out (foldl (batch_step fp) st df))
  = (stdout (out st) ++ (skip_message <$> List.filter skipped df))%list.
Proof.
  revert st. induction df as [|i df IH]; intros st; simpl.
  - by rewrite app_nil_r.
  - rewrite IH, batch_step_stdout.
    destruct (skipped i); simpl; by rewrite <- ?app_assoc.
Qed.

Lemma write_remainder_rows fp st :
  written_rows (write_remainder fp st) = accepted st
  ∧ stdout (write_remainder fp st) = stdout (out st).
Proof.
  unfold write_remainder, accepted.
  destruct (batch st) as [|b bs]; simpl.
  - by rewrite app_nil_r.
  - by rewrite written_rows_to_csv, rows_concat.
Qed.

(** The loop writes the rows of the frames it does not skip, in order, and
    prints one line for each frame it skips. *)
Lemma write_batches_rows fp df :
  df ≠ [] →
  written_rows (write_batches fp df)
  = List.concat (df_rows <$> List.filter (λ i, negb (skipped i)) df)
  ∧ stdout (write_batches fp df) = skip_message <$> List.filter skipped df.
Proof.
  intros Hne. unfold write_batches. destruct df as [|i df]; [done|].
  change (0 <? length (i :: df))%nat with true. cbv iota.
  destruct (write_remainder_rows fp
    (foldl (batch_step fp) (mkBatching 0 0 [] (mkOutput [] [])) (i :: df)))
    as [-> ->].
  by rewrite batch_loop_accepted, batch_loop_stdout.
Qed.

Lemma batch_step_core fp st st' i :
  batch_core st = batch_core st' →
  batch_core (batch_step fp st i) = batch_core (batch_step fp st' i).
Proof.
  unfold batch_core, batch_step. intros [= Hix Hsz Hb Hf].
  destruct (50000 <=? Pd.shape0 i); simpl; [congruence|].
  rewrite Hsz.
  destruct (10000 <=? batch_size st' + Pd.shape0 i); simpl; congruence.
Qed.

Lemma batch_step_core_skipped fp st i :
  skipped i = true → batch_core (batch_step fp st i) = batch_core st.
Proof. unfold batch_core, batch_step, skipped. by intros ->. Qed.

(** The frames that are skipped leave no trace in the files. *)
Lemma batch_loop_core fp df st st' :
  batch_core st = batch_core st' →
  batch_core (foldl (batch_step fp) st df)
  = batch_core (foldl (batch_step fp) st'
                  (List.filter (λ i, negb (skipped i)) df)).
Proof.
  revert st st'. induction df as [|i df IH]; intros st st' Hc; simpl; [done|].
  destruct (skipped i) eqn:Hi; simpl.
  - apply IH. by rewrite batch_step_core_skipped.
  - apply IH. by apply batch_step_core.
Qed.

Lemma write_remainder_core fp st st' :
  batch_core st = batch_core st' →
  files (write_remainder fp st) = files (write_remainder fp st').
Proof.
  unfold batch_core, write_remainder. intros [= Hix Hsz Hb Hf].
  rewrite Hb, Hix. destruct (0 <? length (batch st'))%nat; simpl; congruence.
Qed.

Lemma write_batches_files fp df :
  df ≠ [] →
  files (write_batches fp df)
  = files (write_remainder fp
             (foldl (batch_step fp) (mkBatching 0 0 [] (mkOutput [] []))
                (List.filter (λ i, negb (skipped i)) df))).
Proof.
  intros Hne. unfold write_batches. destruct df as [|i df]; [done|].
  change (0 <? length (i :: df))%nat with true. cbv iota.
  apply write_remainder_core, batch_loop_core. done.
Qed.

(** Two frames of 6000 rows that are not skipped end up in one file. *)
Lemma write_batches_two fp df g1 g2 :
  List.filter (λ i, negb (skipped i)) df = [g1; g2] →
  Pd.shape0 g1 = 6000 → Pd.shape0 g2 = 6000 →
  files (write_batches fp df) = [(format fp 0, Pd.concat [g1; g2])].
Proof.
  intros Hf H1 H2. rewrite write_batches_files by (by destruct df).
  rewrite Hf. simpl. unfold write_remainder, batch_step. simpl.
  rewrite H1. simpl. rewrite H2. reflexivity.
Qed.

(** When every frame is skipped nothing is written. *)
Lemma write_batches_all_skipped fp df :
  df ≠ [] → Forall (λ i, skipped i = true) df →
  files (write_batches fp df) = []
  ∧ stdout (write_batches fp df) = skip_message <$> df.
Proof.
  intros Hne Hall.
  assert (List.filter (λ i, negb (skipped i)) df = []) as Hnone.
  { clear Hne. induction Hall as [|i df Hi _ IH]; simpl; [done|]. by rewrite Hi. }
  assert (List.filter skipped df = df) as Hsame.
  { clear Hne Hnone. induction Hall as [|i df Hi _ IH]; simpl; [done|].
    by rewrite Hi, IH. }
  split.
  - rewrite write_batches_files, Hnone by done. reflexivity.
  - rewrite (proj2 (write_batches_rows fp df Hne)), Hsame. reflexivity.
Qed.

(** *** The frames of the labels *)

Lemma fmap_fst_pair {A B : Type} (g : A → B) (ls : list A) :
  ((λ l, (l, g l)) <$> ls).*1 = ls.
Proof. induction ls as [|l ls IH]; [done|]. rewrite !fmap_cons. by f_equal. Qed.

Lemma groupby_labels (ga : DataFrame F) col l :
  l ∈ (Pd.groupby ga col).*1 ↔
  ∃ r, r ∈ df_rows ga ∧ r !! col = Some (VStr l).
Proof.
  unfold Pd.groupby.
  rewrite (fmap_fst_pair (λ l, Pd.loc (Pd.has_label col l) ga)).
  rewrite merge_sort_Permutation, elem_of_remove_dups, list_elem_of_omap.
  split; intros (r & Hr & Hl); exists r; (split; [done|]).
  - destruct (r !! col) as [[]|]; simpl in Hl; congruence.
  - by rewrite Hl.
Qed.

Lemma label_frames_eq (cw ga : DataFrame F) cols :
  label_frames cw ga cols
  = cols ≫= (λ col, label_frame cw ga col <$> (Pd.groupby ga col).*1).
Proof.
  unfold label_frames. induction cols as [|col cols IH]; [done|].
  rewrite !bind_cons, IH. f_equal.
  unfold Pd.groupby.
  rewrite (fmap_fst_pair (λ l, Pd.loc (Pd.has_label col l) ga)).
  generalize (merge_sort (λ a b : string, Is_true (String.leb a b))
    (remove_dups
       (omap (λ r : gmap string (Val F), r !! col ≫= Pd.as_str) (df_rows ga)))).
  intros ls. induction ls as [|l ls IHl]; [done|].
  rewrite fmap_cons, bind_cons, IHl. reflexivity.
Qed.

Lemma label_frames_elem (cw ga : DataFrame F) cols i :
  i ∈ label_frames cw ga cols ↔
  ∃ col l, col ∈ cols ∧ l ∈ (Pd.groupby ga col).*1
           ∧ i = label_frame cw ga col l.
Proof.
  rewrite label_frames_eq, list_elem_of_bind. split.
  - intros (col & (l & -> & Hl)%list_elem_of_fmap & Hcol). eauto.
  - intros (col & l & Hcol & Hl & ->). exists col. split; [|done].
    apply list_elem_of_fmap. eauto.
Qed.

Lemma tagged_rows (X : DataFrame F) l c :
  df_rows (tagged X l c)
  = (λ r, <["annotation" := VStr c]> (<["label" := VStr l]> r)) <$> df_rows X.
Proof. unfold tagged, Pd.assign_scalar. simpl. by rewrite <- list_fmap_compose. Qed.

Lemma tagged_shape0 (X : DataFrame F) l c :
  Pd.shape0 (tagged X l c) = Pd.shape0 X.
Proof. unfold Pd.shape0. by rewrite tagged_rows, length_fmap. Qed.

(** Every row of the frame of a label carries the label, the column and
    the cells of a row of the results. *)
Lemma label_frame_row (cw ga : DataFrame F) col l r :
  r ∈ df_rows (label_frame cw ga col l) →
  r !! "label" = Some (VStr l) ∧ r !! "annotation" = Some (VStr col)
  ∧ ∃ r0, r0 ∈ df_rows cw ∧ r !! "parameter" = r0 !! "parameter".
Proof.
  unfold label_frame. rewrite tagged_rows.
  intros (r0 & -> & Hr0)%list_elem_of_fmap.
  split; [by simplify_map_eq|]. split; [by simplify_map_eq|].
  exists r0. split; [|by simplify_map_eq].
  simpl in Hr0. apply list_elem_of_In, filter_In in Hr0 as [Hr0 _].
  by apply list_elem_of_In.
Qed.

Lemma filter_all {A : Type} (f : A → bool) (l : list A) :
  Forall (λ x, f x = true) l → List.filter f l = l.
Proof. induction 1 as [|x l Hx _ IH]; simpl; [done|]. by rewrite Hx, IH. Qed.

Lemma remove_dups_cons_elem {A : Type} `{EqDecision A} (x : A) (l : list A) :
  x ∈ l → remove_dups (x :: l) = remove_dups l.
Proof. intros Hx. simpl. by destruct (decide_rel elem_of x l). Qed.

Lemma remove_dups_replicate (n : nat) (l : string) :
  remove_dups (replicate (S n) l) = [l].
Proof.
  induction n as [|n IH]; [done|].
  change (replicate (S (S n)) l) with (l :: replicate (S n) l).
  rewrite remove_dups_cons_elem; [exact IH|]. simpl. left.
Qed.

(** A column that holds one label in every row gives one group, the whole
    frame. *)
Lemma groupby_single (ga : DataFrame F) col l :
  df_rows ga ≠ [] →
  Forall (λ r, r !! col = Some (VStr l)) (df_rows ga) →
  Pd.groupby ga col = [(l, ga)].
Proof.
  intros Hne Hall. unfold Pd.groupby.
  assert (omap (λ r : gmap string (Val F), r !! col ≫= Pd.as_str) (df_rows ga)
          = replicate (length (df_rows ga)) l) as ->.
  { clear Hne. induction Hall as [|r rs Hr _ IH]; simpl; [done|].
    rewrite Hr. simpl. f_equal. exact IH. }
  destruct ga as [cols rows]. simpl in *.
  destruct rows as [|r rows]; [done|].
  change (length (r :: rows)) with (S (length rows)).
  rewrite remove_dups_replicate. simpl. unfold Pd.loc. simpl df_rows.
  rewrite filter_all; [done|].
  eapply Forall_impl; [exact Hall|]. intros r' Hr'. unfold Pd.has_label.
  rewrite Hr'. simpl. apply String.eqb_refl.
Qed.

Lemma unique_elem (g : DataFrame F) c z :
  z ∈ Pd.unique g c ↔ ∃ r, r ∈ df_rows g ∧ r !! c = Some (VInt z).
Proof.
  unfold Pd.unique. rewrite elem_of_list_to_set, list_elem_of_omap.
  split; intros (r & Hr & Hz); exists r; (split; [done|]).
  - destruct (r !! c) as [[]|]; simpl in Hz; congruence.
  - by rewrite Hz.
Qed.

(** When every CAG of the results is a CAG of the group, the group selects
    all the results. *)
Lemma loc_isin_all (cw g : DataFrame F) :
  Forall (λ r, ∃ z, r !! "CAG" = Some (VInt z) ∧ z ∈ Pd.unique g "CAG")
         (df_rows cw) →
  Pd.loc (Pd.isin "CAG" (Pd.unique g "CAG")) cw = cw.
Proof.
  intros Hall. destruct cw as [cols rows]. unfold Pd.loc. simpl in *.
  rewrite filter_all; [done|].
  eapply Forall_impl; [exact Hall|]. intros r (z & Hr & Hz).
  unfold Pd.isin. rewrite Hr. simpl. by apply bool_decide_eq_true.
Qed.

End PartitionFacts.

(** *** The example frames *)

Lemma list_bind_nil {A B : Type} (f : A → list B) : [] ≫= f = [].
Proof. reflexivity. Qed.

Lemma shape0_wide_of n : 0 ≤ n → Pd.shape0 (wide_of n) = n.
Proof.
  intros Hn. unfold Pd.shape0, wide_of. simpl.
  rewrite length_fmap, length_seqZ. lia.
Qed.

Lemma groupby_annot_of n col l :
  0 < n → (∀ c, annot_row c !! col = Some (VStr l)) →
  Pd.groupby (annot_of n) col = [(l, annot_of n)].
Proof.
  intros Hn Hcol. apply groupby_single.
  - simpl. rewrite seqZ_cons by done. done.
  - simpl. apply Forall_fmap, Forall_forall. intros c _. apply Hcol.
Qed.

Lemma loc_wide_of_annot_of n :
  Pd.loc (Pd.isin "CAG" (Pd.unique (annot_of n) "CAG")) (wide_of n) = wide_of n.
Proof.
  apply loc_isin_all. simpl. apply Forall_fmap, Forall_forall. intros c Hc.
  exists c. split; [reflexivity|]. apply unique_elem.
  exists (annot_row c). split; [|reflexivity].
  simpl. by apply list_elem_of_fmap_2.
Qed.

Lemma label_frames_example n :
  0 < n →
  label_frames (wide_of n) (annot_of n) ["genus"; "eggNOG_desc"]
  = [ tagged (wide_of n) "Escherichia" "genus";
      tagged (wide_of n) "ABC transporter" "eggNOG_desc" ]
  ∧ label_frames (wide_of n) (annot_of n) ["genus"]
    = [ tagged (wide_of n) "Escherichia" "genus" ].
Proof.
  intros Hn. unfold label_frames.
  rewrite !bind_cons, !list_bind_nil.
  rewrite (groupby_annot_of n "genus" "Escherichia") by done.
  rewrite (groupby_annot_of n "eggNOG_desc" "ABC transporter") by done.
  rewrite !bind_cons, !list_bind_nil. simpl fst. simpl snd.
  rewrite loc_wide_of_annot_of. done.
Qed.

Lemma skipped_tagged_wide_of n l c :
  0 ≤ n → skipped (tagged (wide_of n) l c) = (50000 <=? n).
Proof. intros Hn. unfold skipped. by rewrite tagged_shape0, shape0_wide_of. Qed.

Lemma skip_message_tagged_wide_of n l c :
  0 < n →
  skip_message (tagged (wide_of n) l c)
  = "Skipping the annotation " +:+ l +:+ " -- too many (" +:+ pretty n
      +:+ ") CAGs found".
Proof.
  intros Hn. unfold skip_message, first_label.
  rewrite tagged_shape0, shape0_wide_of by lia.
  rewrite tagged_rows. simpl df_rows. rewrite seqZ_cons by done.
  rewrite !fmap_cons. by simplify_map_eq.
Qed.

Lemma write_example_6000 :
  write_corncob_by_annot (wide_of 6000) (annot_of 6000)
    ["genus"; "eggNOG_desc"] "corncob.for.betta.{}.csv.gz"
  = Ok (write_batches "corncob.for.betta.{}.csv.gz"
          [ tagged (wide_of 6000) "Escherichia" "genus";
            tagged (wide_of 6000) "ABC transporter" "eggNOG_desc" ])
  ∧ files (write_batches "corncob.for.betta.{}.csv.gz"
             [ tagged (wide_of 6000) "Escherichia" "genus";
               tagged (wide_of 6000) "ABC transporter" "eggNOG_desc" ])
    = [ ("corncob.for.betta.0.csv.gz",
         Pd.concat [ tagged (wide_of 6000) "Escherichia" "genus";
                     tagged (wide_of 6000) "ABC transporter" "eggNOG_desc" ]) ].
Proof.
  split.
  - unfold write_corncob_by_annot.
    change (forallb (Pd.has_col (annot_of 6000)) ["genus"; "eggNOG_desc"])
      with true. cbv iota.
    by rewrite (proj1 (label_frames_example 6000 eq_refl)).
  - apply write_batches_two.
    + apply filter_all.
      repeat constructor; by rewrite skipped_tagged_wide_of.
    + rewrite tagged_shape0. by apply shape0_wide_of.
    + rewrite tagged_shape0. by apply shape0_wide_of.
Qed.

Lemma write_example_50000 :
  write_corncob_by_annot (wide_of 50000) (annot_of 50000) ["genus"]
    "corncob.for.betta.{}.csv.gz"
  = Ok (write_batches "corncob.for.betta.{}.csv.gz"
          [ tagged (wide_of 50000) "Escherichia" "genus" ])
  ∧ files (write_batches "corncob.for.betta.{}.csv.gz"
             [ tagged (wide_of 50000) "Escherichia" "genus" ]) = []
  ∧ stdout (write_batches "corncob.for.betta.{}.csv.gz"
              [ tagged (wide_of 50000) "Escherichia" "genus" ])
    = [ "Skipping the annotation Escherichia -- too many (50000) CAGs found" ].
Proof.
  split.
  - unfold write_corncob_by_annot.
    change (forallb (Pd.has_col (annot_of 50000)) ["genus"]) with true.
    cbv iota. by rewrite (proj2 (label_frames_example 50000 eq_refl)).
  - destruct (write_batches_all_skipped "corncob.for.betta.{}.csv.gz"
                [ tagged (wide_of 50000) "Escherichia" "genus" ]) as [Hf Hs].
    + done.
    + constructor; [|constructor]. by rewrite skipped_tagged_wide_of.
    + split; [done|]. rewrite Hs. simpl.
      by rewrite skip_message_tagged_wide_of.
Qed.

Lemma Ok_inj {A : Type} (a b : A) : Ok a = Ok b → a = b.
Proof. by intros [= ->]. Qed.

Lemma write_corncob_by_annot_ok {F : Type} (cw ga : DataFrame F) cols fp o :
  write_corncob_by_annot cw ga cols fp = Ok o →
  forallb (Pd.has_col ga) cols = true
  ∧ o = write_batches fp (label_frames cw ga cols).
Proof.
  unfold write_corncob_by_annot.
  destruct (forallb (Pd.has_col ga) cols); [|done]. by intros [= <-].
Qed.

Lemma elem_of_concat {A : Type} (x : A) (ls : list (list A)) :
  x ∈ List.concat ls ↔ ∃ l, l ∈ ls ∧ x ∈ l.
Proof.
  rewrite list_elem_of_In, in_concat.
  split; intros (l & Hl & Hx); exists l; by rewrite ?list_elem_of_In in *.
Qed.

(** The rows written are the rows of the frames that are not skipped. *)
Lemma written_rows_elem {F : Type} fp (df : list (DataFrame F)) r :
  df ≠ [] →
  r ∈ written_rows (write_batches fp df) ↔
  ∃ i, i ∈ df ∧ skipped i = false ∧ r ∈ df_rows i.
Proof.
  intros Hne. rewrite (proj1 (write_batches_rows fp df Hne)), elem_of_concat.
  split.
  - intros (l & (i & -> & Hi)%list_elem_of_fmap & Hr).
    apply list_elem_of_In, filter_In in Hi as [Hi Hs].
    exists i. rewrite list_elem_of_In. by destruct (skipped i).
  - intros (i & Hi & Hs & Hr). exists (df_rows i). split; [|done].
    apply list_elem_of_fmap_2, list_elem_of_In, filter_In.
    rewrite <- list_elem_of_In, Hs. done.
Qed.

(** C1, as stated: with two groups of 6000 rows the function writes two
    files, the first of 10000 rows and the second of 2000.  On 6000 CAGs
    that all have one genus and one eggNOG description it does not. *)
Lemma two_groups_of_6000_not_split :
  ¬ (∃ o s0 s1,
       write_corncob_by_annot (wide_of 6000) (annot_of 6000)
         ["genus"; "eggNOG_desc"] "corncob.for.betta.{}.csv.gz" = Ok o
       ∧ files o = [s0; s1]
       ∧ Pd.shape0 s0.2 = 10000 ∧ Pd.shape0 s1.2 = 2000).
Proof.
  intros (o & s0 & s1 & Ho & Hf & _).
  destruct write_example_6000 as [Hw Hfiles].
  rewrite Hw in Ho. apply Ok_inj in Ho. subst o. rewrite Hfiles in Hf.
  apply (f_equal length) in Hf. discriminate Hf.
Qed.

(** C1, amended: when exactly two groups survive the size filter, with
    6000 rows each, [write_corncob_by_annot] writes exactly one file, of
    index 0, that holds the 6000 rows of the first group followed by the
    6000 rows of the second: a group is added whole, the batch is written
    once it holds at least 10000 rows, and no file is written for an empty
    remainder. *)
Theorem two_groups_of_6000_one_shard {F : Type} (cw ga : DataFrame F)
    (cols : list string) (fp : string) (g1 g2 : DataFrame F) :
  forallb (Pd.has_col ga) cols = true →
  List.filter (λ i, negb (skipped i)) (label_frames cw ga cols) = [g1; g2] →
  Pd.shape0 g1 = 6000 → Pd.shape0 g2 = 6000 →
  ∃ o, write_corncob_by_annot cw ga cols fp = Ok o
       ∧ files o = [(format fp 0, Pd.concat [g1; g2])]
       ∧ df_rows (Pd.concat [g1; g2]) = (df_rows g1 ++ df_rows g2)%list
       ∧ Pd.shape0 (Pd.concat [g1; g2]) = 12000.
Proof.
  intros Hcols Hf H1 H2. unfold write_corncob_by_annot. rewrite Hcols.
  eexists. split; [reflexivity|]. split; [by apply write_batches_two|].
  split; [by rewrite rows_concat; simpl; rewrite app_nil_r|].
  unfold Pd.shape0 in *. rewrite rows_concat. simpl.
  rewrite app_nil_r, length_app. lia.
Qed.

Lemma two_groups_of_6000_one_shard_witness :
  ∃ o, write_corncob_by_annot (wide_of 6000) (annot_of 6000)
         ["genus"; "eggNOG_desc"] "corncob.for.betta.{}.csv.gz" = Ok o
       ∧ files o
         = [ (format "corncob.for.betta.{}.csv.gz" 0,
              Pd.concat
                [ tagged (wide_of 6000) "Escherichia" "genus";
                  tagged (wide_of 6000) "ABC transporter" "eggNOG_desc" ]) ]
       ∧ df_rows
           (Pd.concat
              [ tagged (wide_of 6000) "Escherichia" "genus";
                tagged (wide_of 6000) "ABC transporter" "eggNOG_desc" ])
         = (df_rows (tagged (wide_of 6000) "Escherichia" "genus")
            ++ df_rows (tagged (wide_of 6000) "ABC transporter" "eggNOG_desc"))%list
       ∧ Pd.shape0
           (Pd.concat
              [ tagged (wide_of 6000) "Escherichia" "genus";
                tagged (wide_of 6000) "ABC transporter" "eggNOG_desc" ])
         = 12000.
Proof.
  apply (two_groups_of_6000_one_shard (wide_of 6000) (annot_of 6000)
           ["genus"; "eggNOG_desc"] "corncob.for.betta.{}.csv.gz").
  - reflexivity.
  - rewrite (proj1 (label_frames_example 6000 eq_refl)).
    apply filter_all. repeat constructor; by rewrite skipped_tagged_wide_of.
  - rewrite tagged_shape0. by apply shape0_wide_of.
  - rewrite tagged_shape0. by apply shape0_wide_of.
Defined.

(** C2, as stated: a group of exactly 50000 features is kept.  With 50000
    CAGs of one genus, one row each, no row of the genus is written. *)
Lemma group_of_50000_not_kept :
  ¬ (∃ o f r,
       write_corncob_by_annot (wide_of 50000) (annot_of 50000) ["genus"]
         "corncob.for.betta.{}.csv.gz" = Ok o
       ∧ f ∈ files o ∧ r ∈ df_rows f.2
       ∧ r !! "label" = Some (VStr "Escherichia")).
Proof.
  intros (o & f & r & Ho & Hf & _).
  destruct write_example_50000 as (Hw & Hfiles & _).
  rewrite Hw in Ho. apply Ok_inj in Ho. subst o. rewrite Hfiles in Hf.
  by apply not_elem_of_nil in Hf.
Qed.

(** C2, amended: the group of a label [l] of a column [col] is left out of
    the files if and only if it has 50000 result rows or more (so a group
    of exactly 50000 rows is left out and one of 49999 rows is kept): when
    it has, no row tagged with [col] and [l] is written and the skip is
    printed; when it has fewer, every one of its rows is written. *)
Theorem group_skipped_iff_50000_rows {F : Type} (cw ga : DataFrame F)
    (cols : list string) (fp : string) (o : Output F) (col l : string) :
  write_corncob_by_annot cw ga cols fp = Ok o →
  col ∈ cols → l ∈ (Pd.groupby ga col).*1 →
  (50000 ≤ Pd.shape0 (label_frame cw ga col l) →
     (∀ r, r ∈ written_rows o →
           ¬ (r !! "annotation" = Some (VStr col)
              ∧ r !! "label" = Some (VStr l)))
     ∧ skip_message (label_frame cw ga col l) ∈ stdout o)
  ∧ (Pd.shape0 (label_frame cw ga col l) < 50000 →
     ∀ r, r ∈ df_rows (label_frame cw ga col l) → r ∈ written_rows o).
Proof.
  intros [_ ->]%write_corncob_by_annot_ok Hcol Hl.
  assert (label_frame cw ga col l ∈ label_frames cw ga cols) as Hin.
  { apply label_frames_elem. eauto. }
  assert (label_frames cw ga cols ≠ []) as Hne.
  { intros Heq. rewrite Heq in Hin. by apply not_elem_of_nil in Hin. }
  split.
  - intros Hbig%skipped_spec. split.
    + intros r (i & Hi & Hs & Hr)%written_rows_elem [Ha Hlab]; [|done].
      apply label_frames_elem in Hi as (col' & l' & _ & _ & ->).
      apply label_frame_row in Hr as (Hlab' & Ha' & _).
      rewrite Ha in Ha'. rewrite Hlab in Hlab'.
      injection Ha' as ->. injection Hlab' as ->. congruence.
    + rewrite (proj2 (write_batches_rows fp _ Hne)).
      apply list_elem_of_fmap_2, list_elem_of_In, filter_In.
      by rewrite <- list_elem_of_In.
  - intros Hsmall r Hr. apply written_rows_elem; [done|].
    exists (label_frame cw ga col l). repeat split; try done.
    unfold skipped. apply Z.leb_gt. done.
Qed.

Lemma group_skipped_iff_50000_rows_witness :
  ∃ o, write_corncob_by_annot small_wide small_annot ["genus"]
         "corncob.for.betta.{}.csv.gz" = Ok o
     ∧ (50000 ≤ Pd.shape0 (label_frame small_wide small_annot "genus" "Escherichia") →
          (∀ r, r ∈ written_rows o →
                ¬ (r !! "annotation" = Some (VStr "genus")
                   ∧ r !! "label" = Some (VStr "Escherichia")))
          ∧ skip_message (label_frame small_wide small_annot "genus" "Escherichia")
            ∈ stdout o)
     ∧ (Pd.shape0 (label_frame small_wide small_annot "genus" "Escherichia") < 50000 →
        ∀ r, r ∈ df_rows (label_frame small_wide small_annot "genus" "Escherichia") →
             r ∈ written_rows o).
Proof.
  eexists. split; [reflexivity|].
  apply (group_skipped_iff_50000_rows small_wide small_annot ["genus"]
           "corncob.for.betta.{}.csv.gz").
  - reflexivity.
  - apply list_elem_of_In. simpl. tauto.
  - apply list_elem_of_In. vm_compute. tauto.
Defined.

Lemma has_label_spec {F : Type} c l (r : gmap string (Val F)) :
  Pd.has_label c l r = true ↔ r !! c = Some (VStr l).
Proof.
  unfold Pd.has_label. destruct (r !! c) as [[z|x|s]|]; simpl; try done.
  rewrite String.eqb_eq. split; [by intros ->|by intros [= ->]].
Qed.

Lemma dummy_rows {F : Type} (r : gmap string (Val F)) :
  r ∈ df_rows (@dummy F) → r !! "parameter" = Some (VStr "dummy").
Proof. simpl. intros ->%list_elem_of_singleton. by simplify_map_eq. Qed.

Lemma write_batches_nil {F : Type} fp :
  write_batches fp [] = to_csv (mkOutput [] []) (format fp 0) (@dummy F).
Proof. reflexivity. Qed.

Lemma query_wide_of n : Pd.query_not_intercept (wide_of n) = wide_of n.
Proof.
  unfold Pd.query_not_intercept, Pd.loc, wide_of. simpl. f_equal.
  apply filter_all, Forall_fmap, Forall_forall. intros c _. reflexivity.
Qed.

(** C3, on an input where every group is skipped: 50000 CAGs of one genus,
    one row each.  The script writes no file at all and prints the skip;
    the dummy file is written only when there is no column or no group. *)
Theorem all_groups_skipped_no_file :
  write_for_betta (wide_of 50000) (annot_of 50000) ["genus"]
  = Ok (mkOutput []
          [ "Skipping the annotation Escherichia -- too many (50000) CAGs found" ]).
Proof.
  unfold write_for_betta. change (0 <? length ["genus"])%nat with true.
  cbv iota. rewrite query_wide_of.
  destruct write_example_50000 as (-> & Hf & Hs). apply (f_equal Ok).
  destruct (write_batches _ _) as [f s]. simpl in *. by subst.
Qed.

(** C8: no row that [write_for_betta] writes has the parameter
    [(Intercept)], whatever the results, the annotations and the columns. *)
Theorem intercept_never_written {F : Type} (cw ga : DataFrame F)
    (cols : list string) (o : Output F) :
  write_for_betta cw ga cols = Ok o →
  ∀ r, r ∈ written_rows o → r !! "parameter" ≠ Some (VStr "(Intercept)").
Proof.
  unfold write_for_betta. destruct (0 <? length cols)%nat.
  - intros [_ ->]%write_corncob_by_annot_ok r Hr.
    destruct (label_frames (Pd.query_not_intercept cw) ga cols) as [|i df] eqn:Hdf.
    + rewrite write_batches_nil, written_rows_to_csv in Hr. simpl in Hr.
      apply (dummy_rows (F:=F)) in Hr. by rewrite Hr.
    + apply written_rows_elem in Hr as (i' & Hi' & _ & Hr); [|done].
      rewrite <- Hdf in Hi'.
      apply label_frames_elem in Hi' as (col & l & _ & _ & ->).
      apply label_frame_row in Hr as (_ & _ & r0 & Hr0 & ->).
      simpl in Hr0. apply list_elem_of_In, filter_In in Hr0 as [_ Hq].
      intros Hp%has_label_spec. by rewrite Hp in Hq.
  - intros [= <-] r Hr. rewrite written_rows_to_csv in Hr. simpl in Hr.
    apply (dummy_rows (F:=F)) in Hr. by rewrite Hr.
Qed.

Lemma intercept_never_written_witness :
  ∃ o, write_for_betta small_wide small_annot ["genus"] = Ok o
       ∧ ∀ r, r ∈ written_rows o →
              r !! "parameter" ≠ Some (VStr "(Intercept)").
Proof.
  eexists. split; [reflexivity|].
  apply (intercept_never_written small_wide small_annot ["genus"]).
  reflexivity.
Defined.

Example write_for_betta_small :
  (λ o, (λ f : string * DataFrame Q, (f.1, Pd.shape0 f.2)) <$> files o)
    <$> (match write_for_betta small_wide small_annot ["genus"] with
         | Ok o => Some o
         | Raise _ => None
         end)
  = Some [("corncob.for.betta.0.csv.gz", 2)].
Proof. reflexivity. Qed.

(** ** Reshaping *)

Section FrameFacts.

Context {F : Type}.
Implicit Types (df : DataFrame F) (r : gmap string (Val F)).

Lemma has_col_spec df c : Pd.has_col df c = true ↔ c ∈ df_columns df.
Proof. unfold Pd.has_col. apply bool_decide_eq_true. Qed.

Lemma with_col_elem (cols : list string) c c' :
  c' ∈ Pd.with_col cols c ↔ c' = c ∨ c' ∈ cols.
Proof.
  unfold Pd.with_col. case_bool_decide as Hc.
  - split; [by right|]. by intros [->|].
  - rewrite elem_of_app, list_elem_of_singleton. tauto.
Qed.

Lemma set_cell_lookup c r v : Pd.set_cell c r v !! c = v.
Proof. destruct v; simpl; by simplify_map_eq. Qed.

Lemma set_cell_lookup_ne c t r v : c ≠ t → Pd.set_cell c r v !! t = r !! t.
Proof. intros Hne. destruct v; simpl; by simplify_map_eq. Qed.

Lemma assign_inv df c vals df' :
  Pd.assign df c vals = Ok df' →
  length vals = length (df_rows df)
  ∧ df' = mkDF (Pd.with_col (df_columns df) c)
               (zip_with (Pd.set_cell c) (df_rows df) vals).
Proof.
  unfold Pd.assign.
  destruct (Nat.eqb_spec (length vals) (length (df_rows df))); [|done].
  by intros [= <-].
Qed.

Lemma assign_ok df c vals :
  length vals = length (df_rows df) →
  Pd.assign df c vals
  = Ok (mkDF (Pd.with_col (df_columns df) c)
             (zip_with (Pd.set_cell c) (df_rows df) vals)).
Proof. intros Hl. unfold Pd.assign. by rewrite Hl, Nat.eqb_refl. Qed.

Lemma zip_set_cell_column c t (rows : list (gmap string (Val F))) vals :
  length vals = length rows →
  (λ r, r !! t ≫= Pd.as_float) <$> zip_with (Pd.set_cell c) rows vals
  = if decide (c = t) then (λ v, v ≫= Pd.as_float) <$> vals
    else (λ r, r !! t ≫= Pd.as_float) <$> rows.
Proof.
  revert vals. induction rows as [|r rows IH]; intros [|v vals] Hl;
    simpl in Hl; try done.
  - by destruct (decide (c = t)).
  - simpl. rewrite IH by lia. destruct (decide (c = t)) as [->|Hne]; simpl.
    + by rewrite set_cell_lookup.
    + by rewrite set_cell_lookup_ne.
Qed.

(** An assigned column leaves the cells of the other columns as they
    were, row by row. *)
Lemma zip_set_cell_row c (rows : list (gmap string (Val F))) vals r :
  length vals = length rows → r ∈ rows →
  ∃ r', r' ∈ zip_with (Pd.set_cell c) rows vals
        ∧ ∀ t, c ≠ t → r' !! t = r !! t.
Proof.
  intros Hl (i & Hi)%list_elem_of_lookup.
  destruct (lookup_lt_is_Some_2 vals i) as [v Hv].
  { rewrite Hl. by eapply lookup_lt_Some. }
  exists (Pd.set_cell c r v). split.
  - apply list_elem_of_lookup. exists i. rewrite lookup_zip_with, Hi. simpl.
    by rewrite Hv.
  - intros t Hne. by apply set_cell_lookup_ne.
Qed.

Lemma length_float_column df c :
  length (Pd.float_column df c) = length (df_rows df).
Proof. unfold Pd.float_column. by rewrite length_fmap. Qed.

Lemma zip_with_fmap_same {A B C : Type} (g : A → B → C) (h : A → B) (l : list A) :
  zip_with g l (h <$> l) = (λ k, g k (h k)) <$> l.
Proof.
  induction l as [|x l IH]; [done|]. rewrite !fmap_cons. simpl. by f_equal.
Qed.

End FrameFacts.

Section ReshapeFacts.

Context {F : Type} `{Float64 F}.
Implicit Types (corncob_df : list (StatRow F)).

(** *** The groups of the pivot *)

Lemma observations_elem corncob_df k x :
  (k, x) ∈ observations corncob_df ↔
  ∃ r, r ∈ corncob_df ∧ stat_key r = k ∧ value r = Some x.
Proof.
  unfold observations. rewrite list_elem_of_omap.
  split; intros (r & Hr & Hx); exists r; (split; [done|]).
  - destruct (value r) as [y|]; simpl in Hx; [|done].
    injection Hx as <- <-. done.
  - destruct Hx as [<- ->]. done.
Qed.

Lemma observations_keys corncob_df :
  (observations corncob_df).*1 `sublist_of` stat_key <$> corncob_df.
Proof.
  unfold observations. induction corncob_df as [|r l IH]; simpl; [done|].
  destruct (value r) as [x|]; simpl.
  - by apply sublist_skip.
  - by apply sublist_cons.
Qed.

Lemma mu_rows_sublist corncob_df : mu_rows corncob_df `sublist_of` corncob_df.
Proof.
  unfold mu_rows. induction corncob_df as [|r l IH]; simpl; [done|].
  destruct (startswith (parameter r) "mu.").
  - by apply sublist_skip.
  - by apply sublist_cons.
Qed.

Lemma mu_rows_elem corncob_df r :
  r ∈ mu_rows corncob_df ↔
  r ∈ corncob_df ∧ startswith (parameter r) "mu." = true.
Proof. unfold mu_rows. rewrite !list_elem_of_In. apply filter_In. Qed.

(** With distinct keys the group of a key holds the one number of that
    key. *)
Lemma group_values_unique (obs : list (Z * string * string * F)) k x :
  NoDup obs.*1 → (k, x) ∈ obs → group_values k obs = [x].
Proof.
  unfold group_values. induction obs as [|[k' y] obs IH]; simpl.
  - intros _ Hin. by apply not_elem_of_nil in Hin.
  - intros [Hk' Hnd]%NoDup_cons [[= -> ->]|Hin]%elem_of_cons.
    + rewrite decide_True by done. f_equal.
      assert (∀ l : list (Z * string * string * F), k' ∉ l.*1 →
        omap (λ o : Z * string * string * F,
                if decide (o.1 = k') then Some o.2 else None) l = []) as Hnone.
      { clear. induction l as [|[k'' z] l IHl]; simpl; [done|].
        intros Hnot. rewrite decide_False.
        - apply IHl. intros Hl. apply Hnot. by right.
        - intros ->. apply Hnot. by left. }
      by apply Hnone.
    + rewrite decide_False; [by apply IH|].
      intros ->. apply Hk'. apply list_elem_of_fmap. by exists (k, x).
Qed.

Lemma agged_elem (obs : list (Z * string * string * F)) k m :
  (k, m) ∈ agged obs ↔ k ∈ obs.*1 ∧ mean (group_values k obs) = Some m.
Proof.
  unfold agged. rewrite list_elem_of_omap. split.
  - intros (k' & Hk' & Hm). rewrite elem_of_remove_dups in Hk'.
    destruct (mean (group_values k' obs)) as [m'|] eqn:Hmean; simpl in Hm; [|done].
    injection Hm as <- <-. done.
  - intros [Hk Hm]. exists k. rewrite elem_of_remove_dups, Hm. done.
Qed.

Lemma agged_NoDup (obs : list (Z * string * string * F)) :
  NoDup (agged obs).*1.
Proof.
  unfold agged.
  assert (∀ l : list (Z * string * string), NoDup l →
    NoDup (omap (λ k, m ← mean (group_values k obs); Some (k, m)) l).*1
    ∧ ∀ k, k ∈ (omap (λ k, m ← mean (group_values k obs); Some (k, m)) l).*1
           → k ∈ l) as Hgen.
  { induction l as [|k l IH]; simpl; intros Hnd.
    - split; [constructor|]. intros k Hk. by apply not_elem_of_nil in Hk.
    - apply NoDup_cons in Hnd as [Hk Hnd]. destruct (IH Hnd) as [IH1 IH2].
      destruct (mean (group_values k obs)) as [m|]; simpl.
      + split.
        * apply NoDup_cons. split; [|done]. intros Hin. by apply Hk, IH2.
        * intros k' [->|Hk']%elem_of_cons; [by left|]. right. by apply IH2.
      + split; [done|]. intros k' Hk'. right. by apply IH2. }
  apply Hgen, NoDup_remove_dups.
Qed.

(** The cell of type [t] in the pivot row of the index [k]. *)
Lemma pivot_row_Some (ag : list (Z * string * string * F)) k t m :
  NoDup ag.*1 → (k, t, m) ∈ ag → pivot_row ag k !! t = Some (VFloat m).
Proof.
  unfold pivot_row. induction ag as [|[[k' t'] m'] ag IH]; simpl.
  - intros _ Hin. by apply not_elem_of_nil in Hin.
  - intros [Hk' Hnd]%NoDup_cons [[= -> -> ->]|Hin]%elem_of_cons.
    + rewrite decide_True by done. simpl. by rewrite lookup_insert_eq.
    + destruct (decide (k' = k)) as [->|Hne]; simpl; [|by apply IH].
      rewrite lookup_insert_ne; [by apply IH|].
      intros ->. apply Hk'. apply list_elem_of_fmap. by exists (k, t, m).
Qed.

Lemma pivot_row_None (ag : list (Z * string * string * F)) k t :
  (k, t) ∉ ag.*1 → pivot_row ag k !! t = None.
Proof.
  unfold pivot_row. induction ag as [|[[k' t'] m'] ag IH]; simpl; [done|].
  intros Hnot.
  assert ((k, t) ∉ ag.*1) as Hnot' by (intros Hin; apply Hnot; by right).
  destruct (decide (k' = k)) as [->|Hne]; simpl; [|by apply IH].
  rewrite lookup_insert_ne; [by apply IH|].
  intros ->. apply Hnot. by left.
Qed.

Lemma pivot_row_lookup (ag : list (Z * string * string * F)) k t v :
  NoDup ag.*1 →
  pivot_row ag k !! t = Some v ↔ ∃ m, (k, t, m) ∈ ag ∧ v = VFloat m.
Proof.
  intros Hnd. split.
  - intros Hv. destruct (decide ((k, t) ∈ ag.*1)) as [Hin|Hnot].
    + apply list_elem_of_fmap in Hin as ([k' m] & Hk & Hin). simpl in Hk.
      subst k'. exists m. split; [done|].
      rewrite (pivot_row_Some ag k t m Hnd Hin) in Hv. by injection Hv.
    + by rewrite pivot_row_None in Hv.
  - intros (m & Hin & ->). by apply pivot_row_Some.
Qed.

(** *** The pivot and the wide table *)

Lemma pivot_columns_elem corncob_df t :
  t ∈ df_columns (pivot_table corncob_df).2 ↔
  ∃ k m, (k, t, m) ∈ agged (observations corncob_df).
Proof.
  unfold pivot_table. simpl.
  rewrite merge_sort_Permutation, elem_of_remove_dups, list_elem_of_fmap.
  split.
  - intros (kt & Ht & ([[k t'] m] & Hkt & Hin)%list_elem_of_fmap).
    simpl in Hkt. subst kt. simpl in Ht. subst t'. by exists k, m.
  - intros (k & m & Hin). exists (k, t). split; [done|].
    apply list_elem_of_fmap. by exists (k, t, m).
Qed.

Lemma pivot_index_elem corncob_df k :
  k ∈ (pivot_table corncob_df).1 ↔
  ∃ t m, (k, t, m) ∈ agged (observations corncob_df).
Proof.
  unfold pivot_table. simpl.
  rewrite merge_sort_Permutation, elem_of_remove_dups, list_elem_of_fmap.
  split.
  - intros (kt & Hk & ([[k' t] m] & Hkt & Hin)%list_elem_of_fmap).
    simpl in Hkt. subst kt. simpl in Hk. subst k'. by exists t, m.
  - intros (t & m & Hin). exists (k, t). split; [done|].
    apply list_elem_of_fmap. by exists (k, t, m).
Qed.

Lemma wide_mu_spec corncob_df :
  wide_mu corncob_df
  = let p := pivot_table (mu_rows corncob_df) in
    if Pd.has_col p.2 "parameter"
    then Raise (ValueError "cannot insert parameter, already exists")
    else if Pd.has_col p.2 "CAG"
    then Raise (ValueError "cannot insert CAG, already exists")
    else Ok (mkDF ("CAG" :: "parameter" :: df_columns p.2)
               (wide_row_of (agged (observations (mu_rows corncob_df)))
                  <$> p.1)).
Proof.
  unfold wide_mu, reset_index, mu_rows, pivot_table. simpl.
  repeat case_match; try done. simpl. unfold rename_parameters. simpl.
  f_equal. f_equal. rewrite zip_with_fmap_same, <- list_fmap_compose. done.
Qed.

Lemma wide_row_of_CAG (ag : list (Z * string * string * F)) k :
  wide_row_of ag k !! "CAG" = Some (VInt k.1).
Proof. unfold wide_row_of. by simplify_map_eq. Qed.

Lemma wide_row_of_parameter (ag : list (Z * string * string * F)) k :
  wide_row_of ag k !! "parameter" = Some (VStr (replace "mu." "" k.2)).
Proof. unfold wide_row_of. by simplify_map_eq. Qed.

Lemma wide_row_of_cell (ag : list (Z * string * string * F)) k t :
  t ≠ "CAG" → t ≠ "parameter" → wide_row_of ag k !! t = pivot_row ag k !! t.
Proof. intros H1 H2. unfold wide_row_of. by simplify_map_eq. Qed.

Lemma add_wald_inv (t : DataFrame F) w :
  add_wald t = Ok w →
  "estimate" ∈ df_columns t ∧ "std_error" ∈ df_columns t
  ∧ w = mkDF (Pd.with_col (df_columns t) "wald")
          (zip_with (Pd.set_cell "wald") (df_rows t)
             (zip_with wald_cell (Pd.float_column t "estimate")
                (Pd.float_column t "std_error"))).
Proof.
  unfold add_wald, Pd.getitem.
  destruct (Pd.has_col t "estimate") eqn:He; [|done].
  destruct (Pd.has_col t "std_error") eqn:Hs; [|done]. simpl.
  intros [_ ->]%assign_inv. by rewrite <- !has_col_spec.
Qed.

Lemma add_wald_ok (t : DataFrame F) :
  "estimate" ∈ df_columns t → "std_error" ∈ df_columns t →
  ∃ w, add_wald t = Ok w.
Proof.
  intros He%has_col_spec Hs%has_col_spec. unfold add_wald, Pd.getitem.
  rewrite He, Hs. simpl. eexists. apply assign_ok.
  rewrite length_zip_with, !length_float_column. lia.
Qed.

Lemma add_q_value_inv m (t t1 : DataFrame F) :
  add_q_value m t = Ok t1 →
  (Pd.has_col t "p_value" = false ∧ t1 = t)
  ∨ (Pd.has_col t "p_value" = true
     ∧ length (multipletests
                 (Pd.fillna f_one (Pd.float_column t "p_value")) f_alpha m)
       = length (df_rows t)
     ∧ t1 = mkDF (Pd.with_col (df_columns t) "q_value")
              (zip_with (Pd.set_cell "q_value") (df_rows t)
                 ((λ q, Some (VFloat q)) <$>
                    multipletests
                      (Pd.fillna f_one (Pd.float_column t "p_value"))
                      f_alpha m))).
Proof.
  unfold add_q_value. destruct (Pd.has_col t "p_value").
  - intros [Hl ->]%assign_inv. right. rewrite length_fmap in Hl. done.
  - intros [= ->]. by left.
Qed.

Lemma read_corncob_results_inv m corncob_df w :
  read_corncob_results m corncob_df = Ok w →
  ∃ t t1, wide_mu corncob_df = Ok t ∧ add_q_value m t = Ok t1
          ∧ add_wald t1 = Ok w.
Proof.
  unfold read_corncob_results.
  destruct (wide_mu corncob_df) as [t|]; simpl; [|done].
  destruct (add_q_value m t) as [t1|] eqn:Hq; simpl; [|done]. eauto.
Qed.

Lemma mu_rows_nil corncob_df :
  (∀ r, r ∈ corncob_df → startswith (parameter r) "mu." = false) →
  mu_rows corncob_df = [].
Proof.
  unfold mu_rows. induction corncob_df as [|r l IH]; intros Hall; [done|].
  simpl. rewrite (Hall r) by left. apply IH. intros r' Hr'. apply Hall. by right.
Qed.

Lemma read_no_mu_rows m corncob_df :
  (∀ r, r ∈ corncob_df → startswith (parameter r) "mu." = false) →
  read_corncob_results m corncob_df = Raise (KeyError "estimate").
Proof.
  intros Hnil%mu_rows_nil. unfold read_corncob_results.
  rewrite wide_mu_spec, Hnil. reflexivity.
Qed.

Section WithLaws.

Context `{!Float64Laws F}.

Lemma observations_NoDup corncob_df :
  NoDup (stat_key <$> corncob_df) →
  NoDup (observations (mu_rows corncob_df)).*1.
Proof.
  intros Hnd. eapply sublist_NoDup; [|apply observations_keys].
  eapply sublist_NoDup; [exact Hnd|]. apply fmap_sublist, mu_rows_sublist.
Qed.

(** Under the uniqueness of [(CAG, parameter, type)], the pivot has one
    group for every selected line that carries a number, and its mean is
    that number. *)
Lemma agged_unique corncob_df k m :
  NoDup (stat_key <$> corncob_df) →
  (k, m) ∈ agged (observations (mu_rows corncob_df)) ↔
  ∃ r, r ∈ mu_rows corncob_df ∧ stat_key r = k ∧ value r = Some m.
Proof.
  intros Hnd%observations_NoDup. rewrite agged_elem, <- observations_elem.
  split.
  - intros [(kx & Hk & Hin)%list_elem_of_fmap Hm]. destruct kx as [k' x].
    simpl in Hk. subst k'.
    rewrite (group_values_unique _ k x Hnd Hin), mean_single in Hm.
    by injection Hm as <-.
  - intros Hin. split.
    + apply list_elem_of_fmap. by exists (k, m).
    + by rewrite (group_values_unique _ k m Hnd Hin), mean_single.
Qed.

Lemma pivot_columns_unique corncob_df t :
  NoDup (stat_key <$> corncob_df) →
  t ∈ df_columns (pivot_table (mu_rows corncob_df)).2 ↔
  mu_type_present corncob_df t.
Proof.
  intros Hnd. rewrite pivot_columns_elem. unfold mu_type_present. split.
  - intros (k & m & (r & Hr & Hk & Hv)%agged_unique); [|done].
    exists r. injection Hk as _ Ht. rewrite Hv. eauto.
  - intros (r & Hr & Ht & [m Hm]). exists (CAG r, parameter r), m.
    apply agged_unique; [done|]. exists r. unfold stat_key. by rewrite Ht.
Qed.

Lemma add_q_value_total m (t : DataFrame F) :
  ∃ t1, add_q_value m t = Ok t1
        ∧ ∀ c, c ≠ "q_value" → c ∈ df_columns t1 ↔ c ∈ df_columns t.
Proof.
  unfold add_q_value. destruct (Pd.has_col t "p_value").
  - rewrite assign_ok.
    + eexists. split; [done|]. intros c Hc. simpl. rewrite with_col_elem.
      tauto.
    + unfold Pd.fillna.
      by rewrite length_fmap, multipletests_length, length_fmap,
        length_float_column.
  - eexists. split; [done|]. tauto.
Qed.

(** [read_corncob_results] returns a table exactly when the selected
    lines give an estimate and a standard error, and none of their types
    is the name of an index level. *)
Lemma read_returns_iff m corncob_df :
  NoDup (stat_key <$> corncob_df) →
  (∃ w, read_corncob_results m corncob_df = Ok w) ↔
  mu_type_present corncob_df "estimate"
  ∧ mu_type_present corncob_df "std_error"
  ∧ ¬ mu_type_present corncob_df "parameter"
  ∧ ¬ mu_type_present corncob_df "CAG".
Proof.
  intros Hnd. rewrite <- !(pivot_columns_unique corncob_df) by done. split.
  - intros [w (t & t1 & Ht & Ht1 & Hw)%read_corncob_results_inv].
    rewrite wide_mu_spec in Ht. cbv zeta in Ht.
    destruct (Pd.has_col _ "parameter") eqn:Hp; [done|].
    destruct (Pd.has_col _ "CAG") eqn:Hc; [done|].
    apply Ok_inj in Ht. subst t.
    destruct (add_q_value_total m
      (mkDF ("CAG" :: "parameter"
               :: df_columns (pivot_table (mu_rows corncob_df)).2)
            (wide_row_of (agged (observations (mu_rows corncob_df)))
               <$> (pivot_table (mu_rows corncob_df)).1)))
      as (t1' & Ht1' & Hcols).
    rewrite Ht1 in Ht1'. apply Ok_inj in Ht1'. subst t1'.
    apply add_wald_inv in Hw as (He & Hs & _).
    apply Hcols in He; [|done]. apply Hcols in Hs; [|done]. simpl in He, Hs.
    rewrite !elem_of_cons in He, Hs.
    repeat split.
    + by destruct He as [|[|]].
    + by destruct Hs as [|[|]].
    + intros Hin%has_col_spec. congruence.
    + intros Hin%has_col_spec. congruence.
  - intros (He & Hs & Hp & Hc). unfold read_corncob_results.
    rewrite wide_mu_spec. cbv zeta.
    destruct (Pd.has_col _ "parameter") eqn:Hp'.
    { by apply has_col_spec in Hp'. }
    destruct (Pd.has_col _ "CAG") eqn:Hc'.
    { by apply has_col_spec in Hc'. }
    cbv beta iota delta [rbind].
    destruct (add_q_value_total m
      (mkDF ("CAG" :: "parameter"
               :: df_columns (pivot_table (mu_rows corncob_df)).2)
            (wide_row_of (agged (observations (mu_rows corncob_df)))
               <$> (pivot_table (mu_rows corncob_df)).1)))
      as (t1 & -> & Hcols).
    apply add_wald_ok; apply Hcols; try done; simpl; by do 2 right.
Qed.

End WithLaws.

(** The q-value and the Wald statistic are added to the rows of the wide
    table without touching their other cells. *)
Lemma read_rows_kept m corncob_df t w r :
  wide_mu corncob_df = Ok t → read_corncob_results m corncob_df = Ok w →
  r ∈ df_rows t →
  ∃ o, o ∈ df_rows w
       ∧ ∀ c, c ≠ "q_value" → c ≠ "wald" → o !! c = r !! c.
Proof.
  intros Ht (t' & t1 & Ht' & Hq & Hw)%read_corncob_results_inv Hr.
  rewrite Ht in Ht'. apply Ok_inj in Ht'. subst t'.
  assert (∃ r1, r1 ∈ df_rows t1 ∧ ∀ c, c ≠ "q_value" → r1 !! c = r !! c)
    as (r1 & Hr1 & Hsame1).
  { apply add_q_value_inv in Hq as [[_ ->]|(_ & Hl & ->)]; [by exists r|].
    simpl. destruct (zip_set_cell_row "q_value" (df_rows t)
      ((λ q, Some (VFloat q)) <$>
         multipletests (Pd.fillna f_one (Pd.float_column t "p_value"))
           f_alpha m) r) as (r1 & Hr1 & Hs); [by rewrite length_fmap|done|].
    exists r1. split; [done|]. intros c Hc. by apply Hs. }
  apply add_wald_inv in Hw as (_ & _ & ->). simpl.
  destruct (zip_set_cell_row "wald" (df_rows t1)
    (zip_with wald_cell (Pd.float_column t1 "estimate")
       (Pd.float_column t1 "std_error")) r1) as (o & Ho & Hs); [|done|].
  { rewrite length_zip_with, !length_float_column. lia. }
  exists o. split; [done|]. intros c Hq' Hw'. rewrite Hs by done.
  by apply Hsame1.
Qed.

Lemma read_q_value m corncob_df t w :
  wide_mu corncob_df = Ok t → Pd.has_col t "q_value" = false →
  read_corncob_results m corncob_df = Ok w →
  Pd.has_col w "q_value" = Pd.has_col t "p_value"
  ∧ (Pd.has_col t "p_value" = true →
     Pd.float_column w "q_value"
     = Some <$> multipletests
                  (Pd.fillna f_one (Pd.float_column t "p_value")) f_alpha m
     ∧ length (Pd.fillna f_one (Pd.float_column t "p_value"))
       = length (df_rows t))
  ∧ Pd.float_column w "p_value" = Pd.float_column t "p_value"
  ∧ length (df_rows w) = length (df_rows t).
Proof.
  intros Ht Hnoq (t' & t1 & Ht' & Hq & Hw)%read_corncob_results_inv.
  rewrite Ht in Ht'. apply Ok_inj in Ht'. subst t'.
  apply add_wald_inv in Hw as (_ & _ & ->).
  apply add_q_value_inv in Hq as [[Hp ->]|(Hp & Hl & ->)]; rewrite Hp.
  - split; [|split; [done|]].
    + apply not_true_is_false. intros Hc.
      apply has_col_spec in Hc. simpl in Hc.
      apply with_col_elem in Hc as [|Hc]; [done|].
      apply has_col_spec in Hc. congruence.
    + unfold Pd.float_column. simpl df_rows. split.
      * rewrite zip_set_cell_column
          by (rewrite length_zip_with, !length_fmap; lia).
        by rewrite decide_False.
      * rewrite length_zip_with_l_eq; [done|].
        rewrite length_zip_with, !length_fmap; lia.
  - unfold Pd.float_column, Pd.fillna in *. simpl df_rows.
    assert (∀ c, length
        ((λ r : gmap string (Val F), r !! c ≫= Pd.as_float) <$>
         zip_with (Pd.set_cell "q_value") (df_rows t)
           ((λ q : F, Some (VFloat q)) <$>
            multipletests
              (default f_one <$>
               ((λ r : gmap string (Val F), r !! "p_value" ≫= Pd.as_float) <$>
                df_rows t)) f_alpha m)) = length (df_rows t)) as Hlc.
    { intros c. rewrite length_fmap, length_zip_with, length_fmap, Hl. lia. }
    assert (length
        (zip_with (Pd.set_cell "q_value") (df_rows t)
           ((λ q : F, Some (VFloat q)) <$>
            multipletests
              (default f_one <$>
               ((λ r : gmap string (Val F), r !! "p_value" ≫= Pd.as_float) <$>
                df_rows t)) f_alpha m)) = length (df_rows t)) as Hlq.
    { rewrite length_zip_with, length_fmap, Hl. lia. }
    split; [|split].
    + apply has_col_spec. simpl. rewrite !with_col_elem. right. by left.
    + intros _. split.
      * rewrite zip_set_cell_column
          by (rewrite length_zip_with, !Hlc, Hlq; lia).
        rewrite decide_False by done.
        rewrite zip_set_cell_column by (by rewrite length_fmap).
        rewrite decide_True by done. by rewrite <- list_fmap_compose.
      * by rewrite !length_fmap.
    + split.
      * rewrite zip_set_cell_column
          by (rewrite length_zip_with, !Hlc, Hlq; lia).
        rewrite decide_False by done.
        rewrite zip_set_cell_column by (by rewrite length_fmap).
        by rewrite decide_False.
      * rewrite length_zip_with, Hlq, length_zip_with, !Hlc. lia.
Qed.

End ReshapeFacts.

Lemma NoDup_fmap_eq {A B : Type} (f : A → B) (l : list A) (x y : A) :
  NoDup (f <$> l) → x ∈ l → y ∈ l → f x = f y → x = y.
Proof.
  induction l as [|z l IH]; simpl.
  - intros _ Hx. by apply not_elem_of_nil in Hx.
  - intros [Hz Hnd]%NoDup_cons [->|Hx]%elem_of_cons [->|Hy]%elem_of_cons Hf.
    + done.
    + destruct Hz. rewrite Hf. by apply list_elem_of_fmap_2.
    + destruct Hz. rewrite <- Hf. by apply list_elem_of_fmap_2.
    + by apply IH.
Qed.

(** *** The rational example numbers *)

#[export] Instance Q_float64_laws : Float64Laws Q.
Proof.
  split.
  - intros [n d]. simpl. unfold Q_mean. simpl. by rewrite Pos.mul_1_r.
  - intros ps alpha method. simpl.
    destruct (String.eqb method "bonferroni");
      unfold Q_bonferroni, Q_fdr_bh; by rewrite length_fmap.
Qed.

Example read_example_csv :
  (λ w, (df_columns w,
         (λ r : gmap string (Val Q),
            (r !! "CAG", r !! "parameter", r !! "p_value", r !! "q_value"))
           <$> df_rows w))
    <$> (match read_corncob_results "fdr_bh" example_csv with
         | Ok w => Some w
         | Raise _ => None
         end)
  = Some
      (["CAG"; "parameter"; "estimate"; "p_value"; "std_error"; "q_value";
        "wald"],
       [ (Some (VInt 1), Some (VStr "(Intercept)"),
          Some (VFloat (1 # 100)%Q), Some (VFloat (4 # 100)%Q));
         (Some (VInt 1), Some (VStr "treatment"),
          Some (VFloat (1 # 50)%Q), Some (VFloat (4 # 100)%Q));
         (Some (VInt 2), Some (VStr "(Intercept)"),
          Some (VFloat (1 # 20)%Q), Some (VFloat (4 # 60)%Q));
         (Some (VInt 2), Some (VStr "treatment"),
          None, Some (VFloat (4 # 4)%Q)) ]).
Proof. reflexivity. Qed.






(** A type named [q_value] gives the table a [q_value] column without any
    p-value. *)
Example q_value_type_column :
  (λ w, (Pd.has_col w "q_value", Pd.has_col w "p_value"))
    <$> (match read_corncob_results "fdr_bh" q_value_type with
         | Ok w => Some w
         | Raise _ => None
         end)
  = Some (true, false).
Proof. reflexivity. Qed.

(** C7, on a parameter with a second [mu.] after the prefix: the line
    [mu.stimu.lated] comes out as [stilated], not as [stimu.lated];
    [replace] removes every occurrence, not only the prefix. *)
Theorem inner_mu_is_removed :
  ∃ w, read_corncob_results "fdr_bh" inner_mu = Ok w
       ∧ (λ r : gmap string (Val Q), r !! "parameter") <$> df_rows w
         = [ Some (VStr "stilated") ]
       ∧ replace "mu." "" "mu.stimu.lated" = "stilated".
Proof.
  eexists. split; [vm_compute; reflexivity|]. split; vm_compute; reflexivity.
Qed.

(** C9: for lines with distinct [(CAG, parameter, type)], when the
    function returns, every pair [(CAG, parameter)] that has the prefix
    and a number has a row in the table, with that CAG and the parameter
    without its [mu.], whose [estimate], [std_error] and [p_value] cells
    are the values of the lines of the pair, a missing value giving a
    missing cell. *)
Theorem reshape_round_trip {F : Type} `{Float64 F} `{!Float64Laws F}
    (fdr_method : string) (corncob_df : list (StatRow F))
    (w : DataFrame F) (r : StatRow F) :
  NoDup (stat_key <$> corncob_df) →
  read_corncob_results fdr_method corncob_df = Ok w →
  r ∈ corncob_df → startswith (parameter r) "mu." = true →
  is_Some (value r) →
  ∃ o, o ∈ df_rows w
       ∧ o !! "CAG" = Some (VInt (CAG r))
       ∧ o !! "parameter" = Some (VStr (replace "mu." "" (parameter r)))
       ∧ ∀ r', r' ∈ corncob_df →
               CAG r' = CAG r → parameter r' = parameter r →
               type r' ∈ ["estimate"; "std_error"; "p_value"] →
               o !! type r' = VFloat <$> value r'.
Proof.
  intros Hnd Hw Hr Hmu [x Hx].
  destruct (read_corncob_results_inv _ _ _ Hw) as (t & _ & Ht & _).
  pose proof Ht as Ht'. rewrite wide_mu_spec in Ht'. cbv zeta in Ht'.
  destruct (Pd.has_col _ "parameter"); [done|].
  destruct (Pd.has_col _ "CAG"); [done|]. apply Ok_inj in Ht'.
  set (ag := agged (observations (mu_rows corncob_df))) in *.
  assert ((stat_key r, x) ∈ ag) as Hag.
  { apply agged_unique; [done|]. exists r. by rewrite mu_rows_elem. }
  assert (wide_row_of ag (CAG r, parameter r) ∈ df_rows t) as Hrow.
  { rewrite <- Ht'. simpl. apply list_elem_of_fmap_2, pivot_index_elem.
    by exists (type r), x. }
  destruct (read_rows_kept _ _ _ _ _ Ht Hw Hrow) as (o & Ho & Hsame).
  exists o. split; [done|].
  rewrite !Hsame by done.
  split; [apply wide_row_of_CAG|]. split; [apply wide_row_of_parameter|].
  intros r' Hr' Hc Hp Hty.
  assert (type r' ≠ "q_value" ∧ type r' ≠ "wald" ∧ type r' ≠ "CAG"
          ∧ type r' ≠ "parameter") as (H1 & H2 & H3 & H4).
  { rewrite !elem_of_cons in Hty.
    destruct Hty as [->|[->|[->|Hnil]]]; [done..|].
    by apply not_elem_of_nil in Hnil. }
  rewrite Hsame, wide_row_of_cell by done.
  assert (startswith (parameter r') "mu." = true) as Hmu' by (by rewrite Hp).
  destruct (value r') as [y|] eqn:Hy; simpl.
  - apply pivot_row_Some; [apply agged_NoDup|].
    apply agged_unique; [done|]. exists r'. rewrite mu_rows_elem.
    unfold stat_key. by rewrite Hc, Hp.
  - apply pivot_row_None.
    intros ([k m] & Hk & (r'' & Hr'' & Hk'' & Hv)%agged_unique)%list_elem_of_fmap;
      [|done].
    simpl in Hk. subst k. apply mu_rows_elem in Hr'' as [Hr'' _].
    assert (r'' = r') as ->.
    { eapply (NoDup_fmap_eq stat_key); [exact Hnd|done..|].
      rewrite Hk''. unfold stat_key. by rewrite Hc, Hp. }
    congruence.
Qed.

Lemma reshape_round_trip_witness :
  ∃ o, o ∈ df_rows example_result
     ∧ o !! "CAG" = Some (VInt 2)
     ∧ o !! "parameter" = Some (VStr (replace "mu." "" "mu.treatment"))
     ∧ ∀ r', r' ∈ example_csv →
             CAG r' = 2 → parameter r' = "mu.treatment" →
             type r' ∈ ["estimate"; "std_error"; "p_value"] →
             o !! type r' = VFloat <$> value r'.
Proof.
  apply (reshape_round_trip "fdr_bh" example_csv example_result
           (mkStat 2 "mu.treatment" "estimate" (Some (1 # 4)%Q))).
  - apply (bool_decide_unpack _). vm_compute. exact I.
  - vm_compute. reflexivity.
  - apply list_elem_of_In. simpl. tauto.
  - reflexivity.
  - simpl. eauto.
Defined.

(** * Further properties *)

(** ** The ancestor walk *)

Section AncestorWalk.

Variable taxonomy_df : gmap string Tax.Taxon.

Lemma ancestors_mono depth depth' tax_id a chain :
  Tax.ancestors taxonomy_df depth tax_id a = Some chain →
  (depth ≤ depth')%nat →
  Tax.ancestors taxonomy_df depth' tax_id a = Some chain.
Proof.
  revert depth' tax_id a. induction depth as [|d IH]; intros [|d'] tax_id a;
    simpl; try done; try lia.
  destruct (Tax.parent taxonomy_df tax_id) as [p|]; [|done].
  destruct (String.eqb p tax_id); [done|].
  intros Hc Hle. apply IH; [done|lia].
Qed.

Lemma ancestors_length depth tax_id a chain :
  Tax.ancestors taxonomy_df depth tax_id a = Some chain →
  (length a < length chain ≤ length a + depth)%nat.
Proof.
  revert tax_id a. induction depth as [|d IH]; intros tax_id a; simpl; [done|].
  destruct (Tax.parent taxonomy_df tax_id) as [p|].
  - destruct (String.eqb p tax_id).
    + intros [= <-]. rewrite length_app. simpl. lia.
    + intros Hc%IH. rewrite length_app in Hc. simpl in Hc. lia.
  - intros [= <-]. rewrite length_app. simpl. lia.
Qed.

Lemma chain_from_functional tax_id c1 c2 :
  Tax.chain_from taxonomy_df tax_id c1 →
  Tax.chain_from taxonomy_df tax_id c2 → c1 = c2.
Proof.
  intros H1. revert c2.
  induction H1 as [t [Hp|Hp]|t p c Hp Hne Hc IH]; intros c2 H2;
    inversion H2 as [t' Hstop|t' p' c' Hp' Hne' Hc']; subst; try done.
  - congruence.
  - rewrite Hp in Hp'. by injection Hp' as <-.
  - destruct Hstop as [Hn|Hs]; [congruence|].
    rewrite Hp in Hs. by injection Hs as ->.
  - rewrite Hp in Hp'. injection Hp' as <-. f_equal. by apply IH.
Qed.

Lemma chain_from_drop tax_id chain i y :
  Tax.chain_from taxonomy_df tax_id chain → chain !! i = Some y →
  Tax.chain_from taxonomy_df y (drop i chain).
Proof.
  intros Hc. revert i. induction Hc as [t Hstop|t p c Hp Hne Hc IH];
    intros [|i] Hi; simpl in *.
  - injection Hi as <-. by constructor.
  - done.
  - injection Hi as <-. by eapply Tax.chain_step.
  - by apply IH.
Qed.

Lemma chain_from_NoDup tax_id chain :
  Tax.chain_from taxonomy_df tax_id chain → NoDup chain.
Proof.
  intros Hc. apply NoDup_alt. intros i j y Hi Hj.
  pose proof (chain_from_functional _ _ _
                (chain_from_drop _ _ _ _ Hc Hi) (chain_from_drop _ _ _ _ Hc Hj))
    as Heq.
  apply (f_equal length) in Heq. rewrite !length_drop in Heq.
  apply lookup_lt_Some in Hi. apply lookup_lt_Some in Hj. lia.
Qed.

End AncestorWalk.

(** [ancestors] returns a chain, for a suitable bound on the nested calls,
    exactly from the ids whose parent walk reaches an id without a parent
    entry or an id that is its own parent. *)
Theorem ancestors_returns_iff_grounded
    (taxonomy_df : gmap string Tax.Taxon) (tax_id : string) :
  (∃ depth chain, Tax.ancestors taxonomy_df depth tax_id [] = Some chain)
  ↔ Tax.grounded taxonomy_df tax_id.
Proof.
  split.
  - intros (depth & chain & Hc). by eapply ancestors_returns_grounded.
  - intros [chain Hc]%grounded_chain. exists (length chain), chain.
    by apply chain_ancestors.
Qed.



(** A chain returned by [ancestors] starts at the id, follows the parent
    column step by step, ends at an id without a parent entry or at an id
    that is its own parent, never visits an id twice, and has at most as
    many entries as nested calls were allowed. *)
Theorem ancestors_chain_shape
    (taxonomy_df : gmap string Tax.Taxon) (depth : nat) (tax_id : string)
    (chain : list string) :
  Tax.ancestors taxonomy_df depth tax_id [] = Some chain →
  head chain = Some tax_id
  ∧ (∀ i t u, chain !! i = Some t → chain !! S i = Some u →
              Tax.parent taxonomy_df t = Some u ∧ u ≠ t)
  ∧ (∃ t, last chain = Some t
          ∧ (Tax.parent taxonomy_df t = None
             ∨ Tax.parent taxonomy_df t = Some t))
  ∧ NoDup chain
  ∧ (length chain ≤ depth)%nat.
Proof.
  intros Hc. pose proof (ancestors_chain _ _ _ _ Hc) as Hch.
  split; [by eapply chain_from_head|].
  split; [|split; [|split]].
  - clear Hc. induction Hch as [t Hstop|t p c Hp Hne Hch IH]; intros i x y Hi Hj.
    + by destruct i.
    + destruct i as [|i]; simpl in *.
      * injection Hi as <-.
        apply chain_from_head in Hch. destruct c as [|z c]; [done|].
        simpl in *. injection Hch as ->. by injection Hj as <-.
      * by eapply IH.
  - clear Hc. induction Hch as [t Hstop|t p c Hp Hne Hch IH].
    + by exists t.
    + destruct IH as (u & Hu & Hend). exists u. split; [|done].
      destruct c; [done|]. done.
  - by eapply chain_from_NoDup.
  - apply ancestors_length in Hc. simpl in Hc. lia.
Qed.

Lemma ancestors_chain_shape_witness :
  head ["562"; "561"; "543"; "1"] = Some "562"
  ∧ (∀ i t u, ["562"; "561"; "543"; "1"] !! i = Some t →
              ["562"; "561"; "543"; "1"] !! S i = Some u →
              Tax.parent (Tax.Taxonomy_init Tax.rooted) t = Some u ∧ u ≠ t)
  ∧ (∃ t, last ["562"; "561"; "543"; "1"] = Some t
          ∧ (Tax.parent (Tax.Taxonomy_init Tax.rooted) t = None
             ∨ Tax.parent (Tax.Taxonomy_init Tax.rooted) t = Some t))
  ∧ NoDup ["562"; "561"; "543"; "1"]
  ∧ (length ["562"; "561"; "543"; "1"] ≤ 7)%nat.
Proof.
  apply (ancestors_chain_shape (Tax.Taxonomy_init Tax.rooted) 7 "562").
  reflexivity.
Defined.

(** An id that is not in the taxonomy table has no parent, name or rank;
    its ancestor chain is the id alone, and [anc_at_rank] gives no label
    for it. *)
Theorem unknown_id_has_no_label
    (taxonomy_df : gmap string Tax.Taxon) (depth : nat) (tax_id : Z)
    (rk : string) :
  taxonomy_df !! Tax.str tax_id = None →
  Tax.parent taxonomy_df (Tax.str tax_id) = None
  ∧ Tax.name taxonomy_df (Tax.str tax_id) = None
  ∧ Tax.rank taxonomy_df (Tax.str tax_id) = None
  ∧ Tax.ancestors taxonomy_df (S depth) (Tax.str tax_id) []
    = Some [Tax.str tax_id]
  ∧ Tax.anc_at_rank taxonomy_df (S depth) tax_id rk = Some None.
Proof.
  intros Hnone.
  assert (Tax.parent taxonomy_df (Tax.str tax_id) = None) as Hp
    by (unfold Tax.parent; by rewrite Hnone).
  assert (Tax.rank taxonomy_df (Tax.str tax_id) = None) as Hr
    by (unfold Tax.rank; by rewrite Hnone).
  repeat split; try done.
  - unfold Tax.name. by rewrite Hnone.
  - simpl. by rewrite Hp.
  - unfold Tax.anc_at_rank. destruct (tax_id =? 0); [done|].
    simpl. rewrite Hp. simpl. rewrite Hr.
    by destruct (decide (None = Some rk)).
Qed.

Lemma unknown_id_has_no_label_witness :
  Tax.parent (Tax.Taxonomy_init Tax.rooted) (Tax.str 4751) = None
  ∧ Tax.name (Tax.Taxonomy_init Tax.rooted) (Tax.str 4751) = None
  ∧ Tax.rank (Tax.Taxonomy_init Tax.rooted) (Tax.str 4751) = None
  ∧ Tax.ancestors (Tax.Taxonomy_init Tax.rooted) 1 (Tax.str 4751) []
    = Some [Tax.str 4751]
  ∧ Tax.anc_at_rank (Tax.Taxonomy_init Tax.rooted) 1 4751 "genus" = Some None.
Proof.
  apply (unknown_id_has_no_label (Tax.Taxonomy_init Tax.rooted) 0 4751 "genus").
  reflexivity.
Defined.

(** A node whose parent is missing in the stored table gets the parent
    [0]; when the table has no node [0] its chain is the node followed by
    [0]. *)
Theorem missing_parent_chain_ends_at_zero
    (raw : gmap string Tax.RawTaxon) (depth : nat) (tax_id : string)
    (row : Tax.RawTaxon) :
  raw !! tax_id = Some row → Tax.raw_parent row = None →
  raw !! "0" = None → tax_id ≠ "0" →
  Tax.parent (Tax.Taxonomy_init raw) tax_id = Some "0"
  ∧ Tax.ancestors (Tax.Taxonomy_init raw) (S (S depth)) tax_id []
    = Some [tax_id; "0"].
Proof.
  intros Hrow Hpar Hzero Hne.
  assert (Tax.parent (Tax.Taxonomy_init raw) tax_id = Some "0") as Hp.
  { unfold Tax.parent, Tax.Taxonomy_init. rewrite lookup_fmap, Hrow. simpl.
    unfold Tax.init_row. simpl. by rewrite Hpar. }
  assert (Tax.parent (Tax.Taxonomy_init raw) "0" = None) as Hz.
  { unfold Tax.parent, Tax.Taxonomy_init. by rewrite lookup_fmap, Hzero. }
  split; [done|]. simpl. rewrite Hp.
  destruct (String.eqb_spec "0" tax_id) as [Heq|_]; [congruence|].
  by rewrite Hz.
Qed.

Lemma missing_parent_chain_ends_at_zero_witness :
  Tax.parent (Tax.Taxonomy_init Tax.rooted) "9" = Some "0"
  ∧ Tax.ancestors (Tax.Taxonomy_init Tax.rooted) 2 "9" [] = Some ["9"; "0"].
Proof.
  apply (missing_parent_chain_ends_at_zero Tax.rooted 0 "9"
           (Tax.mkRawTaxon None "orphan" "species")); try reflexivity.
  discriminate.
Defined.

(** ** Labels by rank *)

Lemma anc_at_rank_mono (taxonomy_df : gmap string Tax.Taxon)
    (depth depth' : nat) (tax_id : Z) (rk : string) (res : option string) :
  Tax.anc_at_rank taxonomy_df depth tax_id rk = Some res →
  (depth ≤ depth')%nat →
  Tax.anc_at_rank taxonomy_df depth' tax_id rk = Some res.
Proof.
  unfold Tax.anc_at_rank. destruct (tax_id =? 0); [done|].
  destruct (Tax.ancestors taxonomy_df depth (Tax.str tax_id) [])
    as [chain|] eqn:Hc; simpl; [|done].
  intros Hres Hle. by rewrite (ancestors_mono _ _ _ _ _ _ Hc Hle).
Qed.

Lemma anc_at_rank_grounded (taxonomy_df : gmap string Tax.Taxon)
    (tax_id : Z) :
  (tax_id ≠ 0 → Tax.grounded taxonomy_df (Tax.str tax_id)) →
  ∃ depth, ∀ rk, is_Some (Tax.anc_at_rank taxonomy_df depth tax_id rk).
Proof.
  intros Hg. unfold Tax.anc_at_rank.
  destruct (Z.eqb_spec tax_id 0) as [|Hne]; [by exists 0%nat|].
  destruct (grounded_chain _ _ (Hg Hne)) as [chain Hc].
  exists (length chain). intros rk. by rewrite (chain_ancestors _ _ _ Hc).
Qed.

(** When every id of the [tax_id] column that is not 0 has a parent walk
    that stops, [annotate_taxa] returns, for a large enough bound on the
    nested calls and any list of ranks: one column per rank, in the order
    of the list, each with one label per gene, and no label for the genes
    whose id is 0. *)
Theorem rank_columns_total (taxonomy_df : gmap string Tax.Taxon)
    (tax_ids : list Z) :
  (∀ t, t ∈ tax_ids → t ≠ 0 → Tax.grounded taxonomy_df (Tax.str t)) →
  ∃ depth, ∀ depth' rank_list, (depth ≤ depth')%nat →
    ∃ cols,
      rank_columns taxonomy_df depth' tax_ids rank_list = Some cols
      ∧ cols.*1 = rank_list
      ∧ Forall (λ c, length c.2 = length tax_ids
                     ∧ ∀ i, tax_ids !! i = Some 0 → c.2 !! i = Some None) cols.
Proof.
  intros Hg.
  assert (∃ depth, ∀ depth' rk, (depth ≤ depth')%nat →
            ∃ col, rank_column taxonomy_df depth' tax_ids rk = Some col
                   ∧ length col = length tax_ids
                   ∧ ∀ i, tax_ids !! i = Some 0 → col !! i = Some None)
    as [depth Hcol].
  { unfold rank_column. induction tax_ids as [|t ts IH].
    - exists 0%nat. intros depth' rk _. exists []. by repeat split.
    - destruct IH as [d1 IH].
      { intros t' Ht'. apply Hg. by right. }
      destruct (anc_at_rank_grounded taxonomy_df t) as [d2 Ht].
      { apply Hg. by left. }
      exists (d1 `max` d2)%nat. intros depth' rk Hle.
      destruct (IH depth' rk) as (col & Hc & Hl & Hz); [lia|].
      destruct (Ht rk) as [res Hres].
      exists (res :: col). split; [|split].
      + simpl. rewrite (anc_at_rank_mono _ _ depth' _ _ _ Hres) by lia.
        simpl. by rewrite Hc.
      + simpl. by f_equal.
      + intros [|i] Hi; simpl in *; [|by apply Hz].
        injection Hi as ->. apply (anc_at_rank_mono _ _ depth') in Hres; [|lia].
        unfold Tax.anc_at_rank in Hres. simpl in Hres. congruence. }
  exists depth. intros depth' rank_list Hle. unfold rank_columns.
  induction rank_list as [|rk rks IH].
  - exists []. by repeat split.
  - destruct IH as (cols & Hcols & Hnames & Hall).
    destruct (Hcol depth' rk Hle) as (col & Hc & Hl & Hz).
    exists ((rk, col) :: cols). split; [|split].
    + simpl. rewrite Hc. simpl. by rewrite Hcols.
    + rewrite fmap_cons. simpl. by f_equal.
    + by constructor.
Qed.

Lemma rank_columns_total_witness :
  ∃ depth, ∀ depth' rank_list, (depth ≤ depth')%nat →
    ∃ cols,
      rank_columns (Tax.Taxonomy_init Tax.rooted) depth' [562; 0; 9] rank_list
      = Some cols
      ∧ cols.*1 = rank_list
      ∧ Forall (λ c, length c.2 = length [562; 0; 9]
                     ∧ ∀ i, [562; 0; 9] !! i = Some 0 → c.2 !! i = Some None)
               cols.
Proof.
  apply (rank_columns_total (Tax.Taxonomy_init Tax.rooted) [562; 0; 9]).
  intros t Ht _.
  apply (ancestors_returns_grounded (Tax.Taxonomy_init Tax.rooted) 4
           (Tax.str t) (default [] (Tax.ancestors
              (Tax.Taxonomy_init Tax.rooted) 4 (Tax.str t) []))).
  rewrite !elem_of_cons in Ht.
  destruct Ht as [->|[->|[->|Hnil]]]; [reflexivity..|].
  by apply not_elem_of_nil in Hnil.
Defined.

Example rank_columns_rooted :
  rank_columns (Tax.Taxonomy_init Tax.rooted) 4 [562; 0; 9]
    ["family"; "genus"; "species"]
  = Some [ ("family", [Some "Enterobacteriaceae"; None; None]);
           ("genus", [Some "Escherichia"; None; None]);
           ("species", [Some "Escherichia coli"; None; Some "orphan"]) ].
Proof. reflexivity. Qed.

(** ** Strings *)

Lemma prefix_app (old s : string) : String.prefix old (old +:+ s) = true.
Proof.
  induction old as [|c old IH]; simpl; [by destruct s|].
  destruct (ascii_dec c c); [done|congruence].
Qed.

Lemma replace_from_skip (old new u s : string) :
  replace_from old new (String.length u) (u +:+ s) = replace_from old new 0 s.
Proof. induction u as [|c u IH]; simpl; [done|]. exact IH. Qed.

Lemma replace_from_absent (old new s : string) :
  occurs old s = false → replace_from old new 0 s = s.
Proof.
  induction s as [|c s IH]; [done|].
  intros Hocc. cbn [occurs] in Hocc. apply orb_false_iff in Hocc as [Hp Hs].
  cbn [replace_from]. rewrite Hp. by rewrite IH.
Qed.

(** [replace] removes an occurrence of [old] at the start and goes on
    behind it; a string without any occurrence of [old] is left as it is.
    A parameter made of the prefix [mu.] and a suffix without [mu.] comes
    out as the suffix. *)
Theorem replace_prefix_only (old new s : string) :
  old ≠ "" → occurs old s = false →
  replace old new s = s
  ∧ replace old new (old +:+ s) = new +:+ s.
Proof.
  intros Hold Hocc. destruct old as [|c old]; [done|]. unfold replace.
  split; [by apply replace_from_absent|].
  change (String c old +:+ s) with (String c (old +:+ s)).
  cbn [replace_from].
  change (String c (old +:+ s)) with (String c old +:+ s).
  rewrite prefix_app. simpl Nat.pred.
  by rewrite replace_from_skip, replace_from_absent.
Qed.

Lemma replace_prefix_only_witness :
  replace "mu." "" "treatmentB" = "treatmentB"
  ∧ replace "mu." "" ("mu." +:+ "treatmentB") = "" +:+ "treatmentB".
Proof.
  apply (replace_prefix_only "mu." "" "treatmentB").
  - discriminate.
  - reflexivity.
Defined.

(** ** The shards *)

Section ShardFacts.

Context {F : Type}.
Implicit Types (df : list (DataFrame F)) (st : Batching F) (i : DataFrame F).

Lemma seqZ_snoc (n : Z) : 0 ≤ n → seqZ 0 (n + 1) = (seqZ 0 n ++ [n])%list.
Proof.
  intros Hn. rewrite seqZ_app by lia.
  rewrite (seqZ_cons _ 1) by lia. by rewrite (seqZ_nil _ (Z.pred 1)) by lia.
Qed.

(** The files are named with the indices 0, 1, 2, ... in the order in
    which they are written. *)
Lemma batch_step_paths fp st i :
  (files (out st)).*1 = format fp <$> seqZ 0 (ix st) → 0 ≤ ix st →
  (files (out (batch_step fp st i))).*1
  = format fp <$> seqZ 0 (ix (batch_step fp st i))
  ∧ 0 ≤ ix (batch_step fp st i).
Proof.
  intros Hp Hix. unfold batch_step.
  destruct (50000 <=? Pd.shape0 i); simpl; [done|].
  destruct (10000 <=? batch_size st + Pd.shape0 i); simpl; [|done].
  split; [|lia].
  rewrite fmap_app, Hp, seqZ_snoc, fmap_app by done. done.
Qed.

Lemma batch_loop_paths fp df st :
  (files (out st)).*1 = format fp <$> seqZ 0 (ix st) → 0 ≤ ix st →
  (files (out (foldl (batch_step fp) st df))).*1
  = format fp <$> seqZ 0 (ix (foldl (batch_step fp) st df))
  ∧ 0 ≤ ix (foldl (batch_step fp) st df).
Proof.
  revert st. induction df as [|i df IH]; intros st Hp Hix; simpl; [done|].
  destruct (batch_step_paths fp st i Hp Hix) as [Hp' Hix']. by apply IH.
Qed.

Lemma write_batches_paths fp df :
  (files (write_batches fp df)).*1
  = format fp <$> seqZ 0 (Z.of_nat (length (files (write_batches fp df)))).
Proof.
  unfold write_batches. destruct (0 <? length df)%nat; [|done].
  destruct (batch_loop_paths fp df (mkBatching 0 0 [] (mkOutput [] [])))
    as [Hp Hix]; [done..|].
  set (st := foldl (batch_step fp) (mkBatching 0 0 [] (mkOutput [] [])) df) in *.
  assert (Z.of_nat (length (files (out st))) = ix st) as Hlen.
  { apply (f_equal length) in Hp.
    rewrite !length_fmap, length_seqZ in Hp. lia. }
  unfold write_remainder. destruct (0 <? length (batch st))%nat; simpl.
  - rewrite fmap_app, Hp, length_app. simpl.
    replace (Z.of_nat (length (files (out st)) + 1)) with (ix st + 1) by lia.
    rewrite seqZ_snoc, fmap_app by done. done.
  - by rewrite Hlen.
Qed.

Lemma batch_step_invariant fp st i :
  batch_invariant st → batch_invariant (batch_step fp st i).
Proof.
  intros (Hsz & Hlt & Hfiles). unfold batch_invariant, batch_step.
  destruct (Z.leb_spec 50000 (Pd.shape0 i)); simpl; [done|].
  assert (batch_size st + Pd.shape0 i
          = Z.of_nat (length (List.concat (df_rows <$> (batch st ++ [i])%list))))
    as Hsum.
  { rewrite fmap_app, concat_app, length_app. simpl.
    rewrite app_nil_r, Hsz. unfold Pd.shape0. lia. }
  destruct (Z.leb_spec 10000 (batch_size st + Pd.shape0 i)); simpl.
  - split; [done|]. split; [lia|].
    apply Forall_app. split; [done|]. constructor; [|done]. simpl.
    unfold Pd.shape0 at 1 2. rewrite rows_concat, <- Hsum.
    assert (0 ≤ batch_size st) by lia. unfold Pd.shape0 in *. lia.
  - done.
Qed.

Lemma batch_loop_invariant fp df st :
  batch_invariant st → batch_invariant (foldl (batch_step fp) st df).
Proof.
  revert st. induction df as [|i df IH]; intros st Hinv; simpl; [done|].
  by apply IH, batch_step_invariant.
Qed.

Lemma write_batches_sizes fp df :
  df ≠ [] →
  ∃ full rest,
    files (write_batches fp df) = (full ++ rest)%list
    ∧ Forall (λ f : string * DataFrame F, 10000 ≤ Pd.shape0 f.2 < 60000) full
    ∧ (rest = [] ∨ ∃ f, rest = [f] ∧ Pd.shape0 f.2 < 10000).
Proof.
  intros Hne. unfold write_batches. destruct df as [|i df]; [done|].
  change (0 <? length (i :: df))%nat with true. cbv iota.
  destruct (batch_loop_invariant fp (i :: df)
              (mkBatching 0 0 [] (mkOutput [] []))) as (Hsz & Hlt & Hfiles).
  { split; [done|]. split; [simpl; lia|]. constructor. }
  set (st := foldl (batch_step fp) (mkBatching 0 0 [] (mkOutput [] []))
               (i :: df)) in *.
  unfold write_remainder. destruct (0 <? length (batch st))%nat; simpl.
  - exists (files (out st)), [(format fp (ix st), Pd.concat (batch st))].
    split; [done|]. split; [done|]. right. eexists. split; [done|]. simpl.
    unfold Pd.shape0. rewrite rows_concat. lia.
  - exists (files (out st)), []. rewrite app_nil_r. split; [done|].
    split; [done|]. by left.
Qed.

End ShardFacts.

Lemma string_length_app (s1 s2 : string) :
  String.length (s1 +:+ s2) = (String.length s1 + String.length s2)%nat.
Proof. induction s1 as [|c s1 IH]; simpl; [done|]. by rewrite IH. Qed.

Lemma string_app_inv_tail (s1 s2 t : string) :
  s1 +:+ t = s2 +:+ t → s1 = s2.
Proof.
  revert s2. induction s1 as [|c s1 IH]; intros [|c' s2] Heq; simpl in *.
  - done.
  - apply (f_equal String.length) in Heq. simpl in Heq.
    rewrite !string_length_app in Heq. simpl in Heq. lia.
  - apply (f_equal String.length) in Heq. simpl in Heq.
    rewrite !string_length_app in Heq. simpl in Heq. lia.
  - injection Heq as -> Heq. f_equal. by apply IH.
Qed.

Lemma format_for_betta (i : Z) :
  format "corncob.for.betta.{}.csv.gz" i
  = "corncob.for.betta." +:+ pretty i +:+ ".csv.gz".
Proof. reflexivity. Qed.

Lemma format_for_betta_inj : Inj eq eq (format "corncob.for.betta.{}.csv.gz").
Proof.
  intros i j. rewrite !format_for_betta.
  intros Heq%String.app_inj%string_app_inv_tail. by apply pretty_Z_inj.
Qed.

Lemma write_for_betta_inv {F : Type} (cw ga : DataFrame F) cols o :
  write_for_betta cw ga cols = Ok o →
  ∃ df, o = write_batches "corncob.for.betta.{}.csv.gz" df
        ∧ (cols ≠ [] →
           forallb (Pd.has_col ga) cols = true
           ∧ df = label_frames (Pd.query_not_intercept cw) ga cols).
Proof.
  unfold write_for_betta. destruct cols as [|c cols].
  - simpl. intros [= <-]. by exists [].
  - change (0 <? length (c :: cols))%nat with true. cbv iota.
    intros [Ha ->]%write_corncob_by_annot_ok. eauto.
Qed.

(** The files that the script writes are named
    [corncob.for.betta.0.csv.gz], [corncob.for.betta.1.csv.gz], ... in the
    order in which they are written, so no two of them have the same
    name. *)
Theorem shards_numbered_from_zero {F : Type} (cw ga : DataFrame F)
    (cols : list string) (o : Output F) :
  write_for_betta cw ga cols = Ok o →
  (files o).*1
  = (λ i, "corncob.for.betta." +:+ pretty i +:+ ".csv.gz")
      <$> seqZ 0 (Z.of_nat (length (files o)))
  ∧ NoDup (files o).*1.
Proof.
  intros (df & -> & _)%write_for_betta_inv.
  rewrite write_batches_paths. split.
  - apply list_fmap_ext. intros _ i _. apply format_for_betta.
  - apply NoDup_fmap_2; [apply format_for_betta_inj|apply NoDup_seqZ].
Qed.

Lemma shards_numbered_from_zero_witness :
  ∃ o, write_for_betta small_wide small_annot ["genus"] = Ok o
     ∧ (files o).*1
       = (λ i, "corncob.for.betta." +:+ pretty i +:+ ".csv.gz")
           <$> seqZ 0 (Z.of_nat (length (files o)))
     ∧ NoDup (files o).*1.
Proof.
  eexists. split; [reflexivity|].
  apply (shards_numbered_from_zero small_wide small_annot ["genus"]).
  reflexivity.
Defined.

(** When there are groups, every file but possibly the last has at least
    10000 rows and fewer than 60000; a last file with the remainder has
    fewer than 10000 rows. *)
Theorem shard_sizes {F : Type} (cw ga : DataFrame F) (cols : list string)
    (fp : string) (o : Output F) :
  write_corncob_by_annot cw ga cols fp = Ok o →
  label_frames cw ga cols ≠ [] →
  ∃ full rest,
    files o = (full ++ rest)%list
    ∧ Forall (λ f : string * DataFrame F, 10000 ≤ Pd.shape0 f.2 < 60000) full
    ∧ (rest = [] ∨ ∃ f, rest = [f] ∧ Pd.shape0 f.2 < 10000).
Proof.
  intros [_ ->]%write_corncob_by_annot_ok Hne. by apply write_batches_sizes.
Qed.

Lemma shard_sizes_witness :
  ∃ o, write_corncob_by_annot small_wide small_annot ["genus"]
         "corncob.for.betta.{}.csv.gz" = Ok o
     ∧ ∃ full rest,
         files o = (full ++ rest)%list
         ∧ Forall (λ f : string * DataFrame Q, 10000 ≤ Pd.shape0 f.2 < 60000)
                  full
         ∧ (rest = [] ∨ ∃ f, rest = [f] ∧ Pd.shape0 f.2 < 10000).
Proof.
  eexists. split; [reflexivity|].
  apply (shard_sizes small_wide small_annot ["genus"]
           "corncob.for.betta.{}.csv.gz").
  - reflexivity.
  - vm_compute. discriminate.
Defined.

(** When there are groups, the rows written are the rows of the groups
    that are not skipped, each once, group after group in the order of the
    columns and of the labels; and one line is printed for every group that
    is skipped, in that order. *)
Theorem rows_written_in_order {F : Type} (cw ga : DataFrame F)
    (cols : list string) (fp : string) (o : Output F) :
  write_corncob_by_annot cw ga cols fp = Ok o →
  label_frames cw ga cols ≠ [] →
  written_rows o
  = List.concat
      (df_rows <$> List.filter (λ i, negb (skipped i))
                     (label_frames cw ga cols))
  ∧ stdout o
    = skip_message <$> List.filter skipped (label_frames cw ga cols).
Proof.
  intros [_ ->]%write_corncob_by_annot_ok Hne. by apply write_batches_rows.
Qed.

Lemma rows_written_in_order_witness :
  ∃ o, write_corncob_by_annot small_wide small_annot ["genus"]
         "corncob.for.betta.{}.csv.gz" = Ok o
     ∧ written_rows o
       = List.concat
           (df_rows <$> List.filter (λ i, negb (skipped i))
                          (label_frames small_wide small_annot ["genus"]))
     ∧ stdout o
       = skip_message
           <$> List.filter skipped
                 (label_frames small_wide small_annot ["genus"]).
Proof.
  eexists. split; [reflexivity|].
  apply (rows_written_in_order small_wide small_annot ["genus"]
           "corncob.for.betta.{}.csv.gz").
  - reflexivity.
  - vm_compute. discriminate.
Defined.

Lemma label_frames_nil {F : Type} (cw ga : DataFrame F) cols :
  (∀ col r l, col ∈ cols → r ∈ df_rows ga → r !! col ≠ Some (VStr l)) →
  label_frames cw ga cols = [].
Proof.
  intros Hnone. destruct (label_frames cw ga cols) as [|i df] eqn:Hdf; [done|].
  assert (i ∈ label_frames cw ga cols) as Hi by (rewrite Hdf; left).
  apply label_frames_elem in Hi as (col & l & Hcol & Hl & _).
  apply groupby_labels in Hl as (r & Hr & Hlab). by destruct (Hnone col r l).
Qed.

(** When there is no column to partition by, or when the columns exist
    but no gene has a label in any of them, the script writes exactly one
    file, [corncob.for.betta.0.csv.gz], that holds the dummy row, and
    prints nothing. *)
Theorem dummy_file_when_nothing_to_partition {F : Type}
    (cw ga : DataFrame F) (cols : list string) :
  cols = []
  ∨ (forallb (Pd.has_col ga) cols = true
     ∧ ∀ col r l, col ∈ cols → r ∈ df_rows ga → r !! col ≠ Some (VStr l)) →
  write_for_betta cw ga cols
  = Ok (mkOutput [("corncob.for.betta.0.csv.gz", dummy)] []).
Proof.
  intros [->|[Ha Hnone]]; [done|].
  unfold write_for_betta. destruct (0 <? length cols)%nat; [|done].
  unfold write_corncob_by_annot. rewrite Ha.
  by rewrite (label_frames_nil _ _ _ Hnone).
Qed.

Lemma dummy_file_when_nothing_to_partition_witness :
  write_for_betta small_wide unlabelled_annot ["genus"]
  = Ok (mkOutput [("corncob.for.betta.0.csv.gz", dummy)] []).
Proof.
  apply (dummy_file_when_nothing_to_partition small_wide unlabelled_annot
           ["genus"]).
  right. split; [reflexivity|].
  intros col r l ->%list_elem_of_singleton Hr. simpl in Hr.
  rewrite !elem_of_cons in Hr. destruct Hr as [->|[->|Hnil]]; [done..|].
  by apply not_elem_of_nil in Hnil.
Defined.

(** A column of the list that the annotation table does not have makes
    the assertion fail: nothing is written. *)
Theorem missing_column_fails_assertion {F : Type} (cw ga : DataFrame F)
    (cols : list string) (fp col : string) :
  col ∈ cols → Pd.has_col ga col = false →
  write_corncob_by_annot cw ga cols fp = Raise AssertionError
  ∧ write_for_betta cw ga cols = Raise AssertionError.
Proof.
  intros Hcol Hmiss.
  assert (forallb (Pd.has_col ga) cols = false) as Hall.
  { apply not_true_is_false. intros Hall. rewrite forallb_forall in Hall.
    rewrite (Hall col) in Hmiss; [done|]. by apply list_elem_of_In. }
  unfold write_for_betta, write_corncob_by_annot. rewrite Hall.
  split; [done|]. destruct cols; [|done]. by apply not_elem_of_nil in Hcol.
Qed.

Lemma missing_column_fails_assertion_witness :
  write_corncob_by_annot small_wide small_annot ["genus"; "eggNOG_desc"]
    "corncob.for.betta.{}.csv.gz" = Raise AssertionError
  ∧ write_for_betta small_wide small_annot ["genus"; "eggNOG_desc"]
    = Raise AssertionError.
Proof.
  apply (missing_column_fails_assertion small_wide small_annot
           ["genus"; "eggNOG_desc"] "corncob.for.betta.{}.csv.gz"
           "eggNOG_desc").
  - apply list_elem_of_In. simpl. tauto.
  - reflexivity.
Defined.

(** When there are groups and every one of them has 50000 rows or more,
    no file is written, not even the dummy file; one line is printed for
    every group. *)
Theorem every_group_skipped_nothing_written {F : Type} (cw ga : DataFrame F)
    (cols : list string) (fp : string) (o : Output F) :
  write_corncob_by_annot cw ga cols fp = Ok o →
  label_frames cw ga cols ≠ [] →
  Forall (λ i, 50000 ≤ Pd.shape0 i) (label_frames cw ga cols) →
  files o = []
  ∧ stdout o = skip_message <$> label_frames cw ga cols.
Proof.
  intros [_ ->]%write_corncob_by_annot_ok Hne Hall.
  apply write_batches_all_skipped; [done|].
  eapply Forall_impl; [exact Hall|]. intros i. apply skipped_spec.
Qed.

Lemma every_group_skipped_nothing_written_witness :
  files (write_batches "corncob.for.betta.{}.csv.gz"
           (label_frames (wide_of 50000) (annot_of 50000) ["genus"])) = []
  ∧ stdout (write_batches "corncob.for.betta.{}.csv.gz"
              (label_frames (wide_of 50000) (annot_of 50000) ["genus"]))
    = skip_message <$> label_frames (wide_of 50000) (annot_of 50000) ["genus"].
Proof.
  apply (every_group_skipped_nothing_written (wide_of 50000) (annot_of 50000)
           ["genus"] "corncob.for.betta.{}.csv.gz").
  - reflexivity.
  - rewrite (proj2 (label_frames_example 50000 eq_refl)). discriminate.
  - rewrite (proj2 (label_frames_example 50000 eq_refl)).
    constructor; [|constructor].
    rewrite tagged_shape0, shape0_wide_of; lia.
Defined.

(** ** Groups *)

Lemma string_leb_total : Total (λ a b : string, Is_true (String.leb a b)).
Proof.
  intros a b. destruct (String.leb_total a b) as [H|H]; rewrite H;
    [by left|by right].
Qed.

Lemma groupby_groups {F : Type} (df : DataFrame F) (col : string) :
  NoDup (Pd.groupby df col).*1
  ∧ Sorted (λ a b : string, Is_true (String.leb a b)) (Pd.groupby df col).*1
  ∧ (∀ l, l ∈ (Pd.groupby df col).*1 ↔
          ∃ r, r ∈ df_rows df ∧ r !! col = Some (VStr l))
  ∧ (∀ l g, (l, g) ∈ Pd.groupby df col →
            df_columns g = df_columns df
            ∧ df_rows g = List.filter (Pd.has_label col l) (df_rows df)
            ∧ df_rows g ≠ []).
Proof.
  split; [|split; [|split]].
  - unfold Pd.groupby.
    rewrite (fmap_fst_pair (λ l, Pd.loc (Pd.has_label col l) df)).
    rewrite merge_sort_Permutation. apply NoDup_remove_dups.
  - unfold Pd.groupby.
    rewrite (fmap_fst_pair (λ l, Pd.loc (Pd.has_label col l) df)).
    apply Sorted_merge_sort, string_leb_total.
  - intros l. apply groupby_labels.
  - intros l g Hin.
    assert (l ∈ (Pd.groupby df col).*1) as Hl.
    { apply list_elem_of_fmap. by exists (l, g). }
    apply groupby_labels in Hl as (r & Hr & Hlab).
    unfold Pd.groupby in Hin.
    apply list_elem_of_fmap in Hin as (l' & [= <- ->] & _).
    repeat split. simpl. intros Hnil.
    assert (In r (List.filter (Pd.has_label col l) (df_rows df))) as Hrin.
    { apply filter_In. split; [by apply list_elem_of_In|].
      by apply has_label_spec. }
    by rewrite Hnil in Hrin.
Qed.


(** ** The wide table *)

Section WideFacts.

Context {F : Type} `{Float64 F}.

Lemma zip_with_wald (rows : list (gmap string (Val F))) :
  zip_with (Pd.set_cell "wald") rows
    (zip_with wald_cell
       ((λ r : gmap string (Val F), r !! "estimate" ≫= Pd.as_float) <$> rows)
       ((λ r : gmap string (Val F), r !! "std_error" ≫= Pd.as_float) <$> rows))
  = (λ r, Pd.set_cell "wald" r
            (wald_cell (r !! "estimate" ≫= Pd.as_float)
                       (r !! "std_error" ≫= Pd.as_float))) <$> rows.
Proof.
  induction rows as [|r rows IH]; [done|].
  rewrite !fmap_cons. simpl. by f_equal.
Qed.

Lemma zip_set_cell_keys c c1 c2 (rows : list (gmap string (Val F))) vals :
  length vals = length rows → c ≠ c1 → c ≠ c2 →
  (λ o : gmap string (Val F), (o !! c1, o !! c2))
    <$> zip_with (Pd.set_cell c) rows vals
  = (λ o : gmap string (Val F), (o !! c1, o !! c2)) <$> rows.
Proof.
  intros Hl H1 H2. revert vals Hl.
  induction rows as [|r rows IH]; intros [|v vals] Hl; simpl in Hl; try done.
  simpl. rewrite IH by lia. by rewrite !set_cell_lookup_ne.
Qed.

Lemma index_le_total : Total index_le.
Proof.
  intros [c1 p1] [c2 p2]. unfold index_le. simpl.
  destruct (Z.ltb_spec c1 c2); [by left|].
  destruct (Z.ltb_spec c2 c1); [by right|].
  assert (c1 = c2) as -> by lia. rewrite Z.eqb_refl. simpl.
  destruct (String.leb_total p1 p2) as [Hp|Hp]; rewrite Hp; [by left|by right].
Qed.

Lemma mu_rows_cons (r : StatRow F) (l : list (StatRow F)) :
  mu_rows (r :: l)
  = if startswith (parameter r) "mu." then r :: mu_rows l else mu_rows l.
Proof. reflexivity. Qed.

Lemma observations_cons (r : StatRow F) (l : list (StatRow F)) :
  observations (r :: l)
  = match value r with
    | Some x => (CAG r, parameter r, type r, x) :: observations l
    | None => observations l
    end.
Proof. unfold observations. simpl. by destruct (value r). Qed.

Lemma observations_relevant (corncob_df : list (StatRow F)) :
  observations
    (mu_rows
       (List.filter
          (λ r, startswith (parameter r) "mu."
                && match value r with Some _ => true | None => false end)
          corncob_df))
  = observations (mu_rows corncob_df).
Proof.
  induction corncob_df as [|r l IH]; [done|].
  cbn [List.filter]. rewrite (mu_rows_cons r l).
  destruct (startswith (parameter r) "mu.") eqn:Hmu; cbn [andb]; [|done].
  rewrite (observations_cons r (mu_rows l)).
  destruct (value r) as [x|] eqn:Hx; [|done].
  rewrite mu_rows_cons, Hmu, observations_cons, Hx. by f_equal.
Qed.

Lemma pivot_table_observations (d1 d2 : list (StatRow F)) :
  observations d1 = observations d2 → pivot_table d1 = pivot_table d2.
Proof. unfold pivot_table. by intros ->. Qed.

End WideFacts.

(** The Wald statistic of every row of the result is computed from the
    estimate and the standard error of that row: it is their quotient when
    both are present and the quotient is defined, and missing otherwise,
    whatever the input said about a type named [wald]. *)
Theorem wald_is_estimate_over_std_error {F : Type} `{Float64 F}
    (fdr_method : string) (corncob_df : list (StatRow F))
    (w : DataFrame F) (o : gmap string (Val F)) :
  read_corncob_results fdr_method corncob_df = Ok w →
  o ∈ df_rows w →
  o !! "wald"
  = wald_cell (o !! "estimate" ≫= Pd.as_float)
              (o !! "std_error" ≫= Pd.as_float).
Proof.
  intros (t & t1 & _ & _ & Hw)%read_corncob_results_inv Ho.
  apply add_wald_inv in Hw as (_ & _ & ->). simpl in Ho.
  unfold Pd.float_column in Ho. rewrite zip_with_wald in Ho.
  apply list_elem_of_fmap in Ho as (r & -> & _).
  by rewrite set_cell_lookup, !set_cell_lookup_ne.
Qed.

Lemma wald_is_estimate_over_std_error_witness :
  Forall (λ o : gmap string (Val Q),
            o !! "wald"
            = wald_cell (o !! "estimate" ≫= Pd.as_float)
                        (o !! "std_error" ≫= Pd.as_float))
         (df_rows example_result).
Proof.
  apply Forall_forall. intros o.
  apply (wald_is_estimate_over_std_error "fdr_bh" example_csv example_result o).
  vm_compute. reflexivity.
Defined.

(** The rows of the result are in increasing order of the pair (CAG,
    parameter as written in the input), one row per pair; for lines with
    distinct [(CAG, parameter, type)] the pairs are those of the lines with
    the prefix [mu.] that carry a number. *)
Theorem one_row_per_pair_in_order {F : Type} `{Float64 F} `{!Float64Laws F}
    (fdr_method : string) (corncob_df : list (StatRow F)) (w : DataFrame F) :
  NoDup (stat_key <$> corncob_df) →
  read_corncob_results fdr_method corncob_df = Ok w →
  ∃ index,
    NoDup index ∧ Sorted index_le index
    ∧ (∀ c p, (c, p) ∈ index ↔
              ∃ r, r ∈ mu_rows corncob_df ∧ CAG r = c ∧ parameter r = p
                   ∧ is_Some (value r))
    ∧ (λ o : gmap string (Val F), (o !! "CAG", o !! "parameter")) <$> df_rows w
      = (λ k : Z * string,
           (Some (VInt k.1), Some (VStr (replace "mu." "" k.2)))) <$> index.
Proof.
  intros Hnd Hw. exists (pivot_table (mu_rows corncob_df)).1.
  split; [|split; [|split]].
  - unfold pivot_table. simpl. rewrite merge_sort_Permutation.
    apply NoDup_remove_dups.
  - unfold pivot_table. simpl. apply Sorted_merge_sort, index_le_total.
  - intros c p. rewrite pivot_index_elem. split.
    + intros (t & m & (r & Hr & [= <- <- <-] & Hv)%agged_unique); [|done].
      exists r. by rewrite Hv.
    + intros (r & Hr & <- & <- & [m Hm]). exists (type r), m.
      apply agged_unique; [done|]. by exists r.
  - apply read_corncob_results_inv in Hw as (t & t1 & Ht & Hq & Hw).
    rewrite wide_mu_spec in Ht. cbv zeta in Ht.
    destruct (Pd.has_col _ "parameter"); [done|].
    destruct (Pd.has_col _ "CAG"); [done|]. apply Ok_inj in Ht. subst t.
    apply add_wald_inv in Hw as (_ & _ & ->). simpl df_rows.
    rewrite zip_set_cell_keys; [|
      by rewrite length_zip_with, !length_float_column; lia|done..].
    apply add_q_value_inv in Hq as [[_ ->]|(_ & Hl & ->)]; simpl df_rows.
    + rewrite <- list_fmap_compose. apply list_fmap_ext. intros _ k _. simpl.
      by rewrite wide_row_of_CAG, wide_row_of_parameter.
    + rewrite zip_set_cell_keys; [|by rewrite length_fmap|done..].
      rewrite <- list_fmap_compose. apply list_fmap_ext. intros _ k _. simpl.
      by rewrite wide_row_of_CAG, wide_row_of_parameter.
Qed.

Lemma one_row_per_pair_in_order_witness :
  ∃ index,
    NoDup index ∧ Sorted index_le index
    ∧ (∀ c p, (c, p) ∈ index ↔
              ∃ r, r ∈ mu_rows example_csv ∧ CAG r = c ∧ parameter r = p
                   ∧ is_Some (value r))
    ∧ (λ o : gmap string (Val Q), (o !! "CAG", o !! "parameter"))
        <$> df_rows example_result
      = (λ k : Z * string,
           (Some (VInt k.1), Some (VStr (replace "mu." "" k.2)))) <$> index.
Proof.
  apply (one_row_per_pair_in_order "fdr_bh" example_csv example_result).
  - apply (bool_decide_unpack _). vm_compute. exact I.
  - vm_compute. reflexivity.
Defined.

(** Only the lines that have the prefix [mu.] and carry a number matter:
    dropping all the other lines from the input changes neither the result
    nor the exception. *)
Theorem other_lines_are_ignored {F : Type} `{Float64 F}
    (fdr_method : string) (corncob_df : list (StatRow F)) :
  read_corncob_results fdr_method
    (List.filter
       (λ r, startswith (parameter r) "mu."
             && match value r with Some _ => true | None => false end)
       corncob_df)
  = read_corncob_results fdr_method corncob_df.
Proof.
  unfold read_corncob_results. rewrite !wide_mu_spec.
  rewrite (pivot_table_observations _ _ (observations_relevant corncob_df)).
  by rewrite observations_relevant.
Qed.

(** The list of frames that [write_corncob_by_annot] goes through has the
    columns in the order of [col_name_list] and, within a column, one
    frame per distinct label of the genes, in increasing order of the
    labels. *)
Theorem label_frames_in_order {F : Type} (cw ga : DataFrame F)
    (cols : list string) :
  ∃ labels : string → list string,
    (∀ col, NoDup (labels col)
            ∧ Sorted (λ a b : string, Is_true (String.leb a b)) (labels col)
            ∧ ∀ l, l ∈ labels col ↔
                   ∃ g, g ∈ df_rows ga ∧ g !! col = Some (VStr l))
    ∧ label_frames cw ga cols
      = cols ≫= (λ col, label_frame cw ga col <$> labels col).
Proof.
  exists (λ col, (Pd.groupby ga col).*1). split.
  - intros col. destruct (groupby_groups ga col) as (Hnd & Hs & Hl & _). done.
  - apply label_frames_eq.
Qed.

Section Placement.

Context {F : Type}.
Implicit Types (df : list (DataFrame F)) (st : Batching F) (i : DataFrame F).

Lemma concat_rows_elem i (l : list (DataFrame F)) :
  i ∈ l →
  ∃ pre post, List.concat (df_rows <$> l) = (pre ++ df_rows i ++ post)%list.
Proof.
  intros (l1 & l2 & ->)%list_elem_of_split.
  exists (List.concat (df_rows <$> l1)), (List.concat (df_rows <$> l2)).
  rewrite fmap_app, concat_app. done.
Qed.

Lemma batch_step_placed fp st i j :
  placed st i → placed (batch_step fp st j) i.
Proof.
  unfold placed, batch_step. intros Hpl.
  destruct (50000 <=? Pd.shape0 j); simpl; [done|].
  destruct (10000 <=? batch_size st + Pd.shape0 j); simpl.
  - right. destruct Hpl as [Hin|(f & pre & post & Hf & Hrows)].
    + destruct (concat_rows_elem i (batch st ++ [j])%list) as (pre & post & Heq).
      { apply elem_of_app. by left. }
      exists (format fp (ix st), Pd.concat (batch st ++ [j])), pre, post.
      split; [|exact Heq].
      apply elem_of_app. right. left.
    + exists f, pre, post. split; [|done]. apply elem_of_app. by left.
  - destruct Hpl as [Hin|Hfile]; [left|by right]. apply elem_of_app. by left.
Qed.

Lemma batch_step_placed_new fp st j :
  skipped j = false → placed (batch_step fp st j) j.
Proof.
  unfold placed, batch_step, skipped. intros ->.
  destruct (10000 <=? batch_size st + Pd.shape0 j); simpl.
  - right.
    destruct (concat_rows_elem j (batch st ++ [j])%list) as (pre & post & Heq).
    { apply elem_of_app. right. left. }
    exists (format fp (ix st), Pd.concat (batch st ++ [j])), pre, post.
    split; [|exact Heq]. apply elem_of_app. right. left.
  - left. apply elem_of_app. right. left.
Qed.

Lemma batch_loop_placed fp df st i :
  placed st i ∨ (i ∈ df ∧ skipped i = false) →
  placed (foldl (batch_step fp) st df) i.
Proof.
  revert st. induction df as [|j df IH]; intros st [Hpl|[Hin Hs]]; simpl.
  - done.
  - by apply not_elem_of_nil in Hin.
  - apply IH. left. by apply batch_step_placed.
  - apply elem_of_cons in Hin as [->|Hin].
    + apply IH. left. by apply batch_step_placed_new.
    + apply IH. by right.
Qed.

Lemma write_remainder_placed fp st i :
  placed st i →
  ∃ f pre post, f ∈ files (write_remainder fp st)
                ∧ df_rows f.2 = (pre ++ df_rows i ++ post)%list.
Proof.
  unfold placed, write_remainder. intros [Hin|(f & pre & post & Hf & Hrows)].
  - destruct (batch st) as [|b bs] eqn:Hb; [by apply not_elem_of_nil in Hin|].
    simpl. destruct (concat_rows_elem i (b :: bs) Hin) as (pre & post & Heq).
    exists (format fp (ix st), Pd.concat (b :: bs)), pre, post.
    split; [|exact Heq]. apply elem_of_app. right. left.
  - exists f, pre, post. split; [|done].
    destruct (0 <? length (batch st))%nat; simpl; [|done].
    apply elem_of_app. by left.
Qed.

End Placement.

(** A group that is kept is never split: its rows lie together, in their
    order, in one of the files. *)
Theorem kept_group_is_never_split {F : Type} (cw ga : DataFrame F)
    (cols : list string) (fp : string) (o : Output F) (i : DataFrame F) :
  write_corncob_by_annot cw ga cols fp = Ok o →
  i ∈ label_frames cw ga cols → Pd.shape0 i < 50000 →
  ∃ f pre post, f ∈ files o
                ∧ df_rows f.2 = (pre ++ df_rows i ++ post)%list.
Proof.
  intros [_ ->]%write_corncob_by_annot_ok Hi Hsmall.
  unfold write_batches.
  destruct (label_frames cw ga cols) as [|j df] eqn:Hdf;
    [by apply not_elem_of_nil in Hi|].
  change (0 <? length (j :: df))%nat with true. cbv iota.
  apply write_remainder_placed, batch_loop_placed. right. split; [done|].
  unfold skipped. by apply Z.leb_gt.
Qed.

Lemma kept_group_is_never_split_witness :
  ∃ o, write_corncob_by_annot small_wide small_annot ["genus"]
         "corncob.for.betta.{}.csv.gz" = Ok o
     ∧ ∃ f pre post,
         f ∈ files o
         ∧ df_rows f.2
           = (pre ++ df_rows (label_frame small_wide small_annot "genus"
                                "Escherichia") ++ post)%list.
Proof.
  eexists. split; [reflexivity|].
  apply (kept_group_is_never_split small_wide small_annot ["genus"]
           "corncob.for.betta.{}.csv.gz").
  - reflexivity.
  - apply label_frames_elem. exists "genus", "Escherichia".
    split; [apply list_elem_of_In; simpl; tauto|].
    split; [apply list_elem_of_In; vm_compute; tauto|reflexivity].
  - vm_compute. reflexivity.
Defined.

(** When the annotation table has neither a [tax_id] nor an
    [eggNOG_desc] column, no column is used and the script writes the dummy
    file alone. *)
Theorem no_annotation_column_dummy_file {F : Type} (cw ga : DataFrame F) :
  Pd.has_col ga "tax_id" = false → Pd.has_col ga "eggNOG_desc" = false →
  columns_to_use ga = []
  ∧ write_for_betta cw ga (columns_to_use ga)
    = Ok (mkOutput [("corncob.for.betta.0.csv.gz", dummy)] []).
Proof.
  intros Ht He. unfold columns_to_use. rewrite Ht, He. done.
Qed.

Lemma no_annotation_column_dummy_file_witness :
  columns_to_use unlabelled_annot = []
  ∧ write_for_betta small_wide unlabelled_annot (columns_to_use unlabelled_annot)
    = Ok (mkOutput [("corncob.for.betta.0.csv.gz", dummy)] []).
Proof.
  apply (no_annotation_column_dummy_file small_wide unlabelled_annot);
    reflexivity.
Defined.
